(** * parlai/scripts/train_model.py: the training loop, embedded in Rocq

    A shallow embedding of [TrainLoop] and of the evaluation helpers of
    [train_model.py].

    Conventions of the embedding:
    - Python numbers ([int], finite [float]) are rationals [Q] with exact
      arithmetic; [float('inf')] only ever appears as a threshold computed
      by [TrainLoop.__init__] and is the constructor [PInf] of [ext].
    - [opt] is a dictionary, a [gmap string value]; [opt[k]] raises
      [KeyError] on a missing key, [opt.get(k)] yields [None].
    - Exceptions are the [Raise] results of an error monad.
    - A file holds the datum written to it: the text layers ([json.dump] /
      [json.load], [str] / [float]) are not modelled, a [.trainstats] file
      holds a [json] tree.
    - Collaborators that live outside the script (worlds, agents, timers,
      the distributed runtime) are interfaces or explicit inputs. *)

From Stdlib Require Import QArith ZArith Lia Lqa.
From stdpp Require Import gmap strings list.

Set Warnings "-register-all".
Local Open Scope Z_scope.

(** ** Dynamic values, exceptions and the error monad *)

Inductive value : Type :=
| VNone
| VBool (b : bool)
| VNum (q : Q)
| VStr (s : string).

Inductive exn : Type :=
| KeyError (k : string)
| TypeError
| OSError
| RuntimeError (msg : string)
| ValueError
| KeyboardInterrupt
| StopTrainException.

Inductive result (A : Type) : Type :=
| Ok (a : A)
| Raise (e : exn).

Arguments Ok {A} a.
Arguments Raise {A} e.

Definition rbind {A B : Type} (m : result A) (k : A -> result B) : result B :=
  match m with
  | Ok a => k a
  | Raise e => Raise e
  end.

Notation "'let*' x ':=' m 'in' k" := (rbind m (fun x => k))
  (at level 10, x name, m at level 100, k at level 200).
Notation "'let*' ' p ':=' m 'in' k" := (rbind m (fun p => k))
  (at level 10, p pattern, m at level 100, k at level 200).

(** Python truthiness, as used by [if opt.get('model_file')]. *)
Definition truthy (v : value) : bool :=
  match v with
  | VNone => false
  | VBool b => b
  | VNum q => negb (Qeq_bool q 0)
  | VStr s => negb (String.eqb s "")
  end.

(** Numeric reading of a value ([bool] is a subtype of [int]); comparing
    [None] or a string with a number raises [TypeError]. *)
Definition as_num (v : value) : result Q :=
  match v with
  | VNum q => Ok q
  | VBool b => Ok (if b then 1%Q else 0%Q)
  | VNone | VStr _ => Raise TypeError
  end.

Definition Qltb (x y : Q) : bool := negb (Qle_bool y x).
Definition Qgtb (x y : Q) : bool := Qltb y x.
Definition Qgeb (x y : Q) : bool := Qle_bool y x.

(** [opt[k]] *)
Definition opt_index (opt : gmap string value) (k : string) : result value :=
  match opt !! k with
  | Some v => Ok v
  | None => Raise (KeyError k)
  end.

(** [opt.get(k)] *)
Definition opt_get (opt : gmap string value) (k : string) : value :=
  default VNone (opt !! k).

(** [opt.get(k, d)] *)
Definition opt_get_default (opt : gmap string value) (k : string) (d : value) : value :=
  default d (opt !! k).

(** ** Thresholds: a number or [float('inf')] *)

Inductive ext : Type :=
| Fin (q : Q)
| PInf.

(** [x >= t] and [x > t] for a finite reading [x]. *)
Definition ge_ext (x : Q) (t : ext) : bool :=
  match t with
  | Fin q => Qgeb x q
  | PInf => false
  end.

Definition gt_ext (x : Q) (t : ext) : bool :=
  match t with
  | Fin q => Qgtb x q
  | PInf => false
  end.

(** [opt[k] if opt[k] > 0 else float('inf')] *)
Definition positive_or_inf (opt : gmap string value) (k : string) : result ext :=
  let* v := opt_index opt k in
  let* q := as_num v in
  Ok (if Qgtb q 0 then Fin q else PInf).

(** ** Smart defaults for [--validation-metric-mode], lines 384-390 *)

Definition is_str_in (v : value) (l : list string) : bool :=
  match v with
  | VStr s => bool_decide (s ∈ l)
  | _ => false
  end.

Definition init_validation_metric_mode (opt : gmap string value)
  : result (gmap string value) :=
  let* metric := opt_index opt "validation_metric" in
  let opt1 :=
    if is_str_in metric ["loss"; "ppl"; "mean_rank"] then
      <["validation_metric_mode" := VStr "min"]> opt
    else if is_str_in metric ["accuracy"; "hits@1"; "hits@5"; "f1"; "bleu"] then
      <["validation_metric_mode" := VStr "max"]> opt
    else opt in
  Ok (match opt_get opt1 "validation_metric_mode" with
      | VNone => <["validation_metric_mode" := VStr "max"]> opt1
      | _ => opt1
      end).

(** [self.valid_optim = 1 if opt['validation_metric_mode'] == 'max' else -1] *)
Definition init_valid_optim (opt : gmap string value) : result Z :=
  let* mode := opt_index opt "validation_metric_mode" in
  Ok (match mode with
      | VStr s => if String.eqb s "max" then 1 else -1
      | _ => -1
      end).

(** ** Files *)

(** The tree written by [json.dump] and read back by [json.load]. *)
Inductive json : Type :=
| JNull
| JInt (z : Z)
| JFloat (q : Q)
| JStr (s : string)
| JArr (l : list json)
| JObj (fields : list (string * json)).

(** [obj.get(k, d)] on a loaded JSON object. *)
Fixpoint json_get (fields : list (string * json)) (k : string) : option json :=
  match fields with
  | [] => None
  | (k', v) :: rest => if String.eqb k' k then Some v else json_get rest k
  end.

Inductive file : Type :=
| FModel                      (* an agent snapshot, opaque to the loop *)
| FJson (j : json)            (* a [.trainstats] file *)
| FNum (q : Q)                (* the [.best_valid] sentinel *)
| FLog (lines : list string). (* an append-only evaluation log *)

(** The disk: the files present, and the paths [open] fails on. *)
Record filesystem : Type := mk_fs {
  files : gmap string file;
  denied : gset string
}.

Definition isfile (fs : filesystem) (path : string) : bool :=
  bool_decide (is_Some (files fs !! path)).

(** [open(path, 'w')] followed by a write of [content] and [close]. *)
Definition write_file (fs : filesystem) (path : string) (content : file)
  : result filesystem :=
  if bool_decide (path ∈ denied fs) then Raise OSError
  else Ok (mk_fs (<[path := content]> (files fs)) (denied fs)).

(** [open(path, 'a+')], [f.write(line + '\n')], [f.close()]. *)
Definition append_line (fs : filesystem) (path : string) (line : string)
  : result filesystem :=
  if bool_decide (path ∈ denied fs) then Raise OSError
  else
    let old := match files fs !! path with
               | Some (FLog ls) => ls
               | _ => []
               end in
    Ok (mk_fs (<[path := FLog (old ++ [line])]> (files fs)) (denied fs)).

(** A report after [_values_only]: metric name to scalar. *)
Abbreviation values_report := (gmap string Q).

(** ** The loop object *)

Record TrainLoop : Type := mk_TrainLoop {
  opt : gmap string value;
  parleys : Z;
  max_num_epochs : ext;
  max_train_time : ext;
  log_every_n_secs : ext;
  val_every_n_secs : ext;
  save_every_n_secs : ext;
  val_every_n_epochs : ext;
  last_valid_epoch : Q;
  valid_optim : Z;
  valid_reports : list values_report;
  best_valid : option Q;
  impatience : Z;
  saved : bool;
  _preempted_epochs : Q;
  train_time_total : Q;         (* [self.train_time.total] *)
  _total_epochs : Q
}.

Definition as_str (v : value) : result string :=
  match v with
  | VStr s => Ok s
  | _ => Raise TypeError
  end.

(** Lines 329-336: which stats file a new loop reads. *)
Definition init_trainstats_suffix (opt : gmap string value) (fs : filesystem)
  : result (gmap string value * string) :=
  let* lfc := opt_index opt "load_from_checkpoint" in
  if truthy lfc && truthy (opt_get opt "model_file") then
    let* mf := as_str (opt_get opt "model_file") in
    if isfile fs (mf +:+ ".checkpoint") then
      Ok (<["init_model" := VStr (mf +:+ ".checkpoint")]> opt,
          ".checkpoint.trainstats"%string)
    else Ok (opt, ".trainstats"%string)
  else Ok (opt, ".trainstats"%string).

(** Lines 338-342. *)
Definition init_check_paths (opt : gmap string value) : result unit :=
  if truthy (opt_get opt "dict_file") || truthy (opt_get opt "model_file")
  then Ok tt
  else Raise (RuntimeError "WARNING: For train_model, please specify either a model_file or dict_file.").

(** Lines 395-400: the best validation value of an earlier run. *)
Definition init_best_valid (opt : gmap string value) (fs : filesystem)
  : result (option Q) :=
  if truthy (opt_get opt "model_file") then
    let* mf := as_str (opt_get opt "model_file") in
    match files fs !! (mf +:+ ".best_valid") with
    | Some (FNum q) => Ok (Some q)
    | Some _ => Raise ValueError
    | None => Ok None
    end
  else Ok None.

(** The four fields a [.trainstats] file carries. *)
Record trainstats : Type := mk_trainstats {
  ts_total_epochs : Q;
  ts_train_time : Q;
  ts_impatience : Z;
  ts_valid_reports : list values_report
}.

Definition json_float (j : json) : result Q :=
  match j with
  | JFloat q => Ok q
  | JInt z => Ok (inject_Z z)
  | _ => Raise TypeError
  end.

Definition json_int (j : json) : result Z :=
  match j with
  | JInt z => Ok z
  | _ => Raise TypeError
  end.

Fixpoint json_report_fields (fields : list (string * json))
  : result (list (string * Q)) :=
  match fields with
  | [] => Ok []
  | (k, j) :: rest =>
      let* q := json_float j in
      let* tl := json_report_fields rest in
      Ok ((k, q) :: tl)
  end.

Definition json_report (j : json) : result values_report :=
  match j with
  | JObj fields =>
      let* l := json_report_fields fields in
      Ok (list_to_map l)
  | _ => Raise TypeError
  end.

Fixpoint json_reports_list (l : list json) : result (list values_report) :=
  match l with
  | [] => Ok []
  | j :: rest =>
      let* r := json_report j in
      let* tl := json_reports_list rest in
      Ok (r :: tl)
  end.

Definition json_reports (j : json) : result (list values_report) :=
  match j with
  | JArr l => json_reports_list l
  | _ => Raise TypeError
  end.

(** Lines 413-418: [obj.get(key, default)] for each of the four keys.  The
    loop fields are typed, so a stats file whose fields have another JSON
    type is rejected here. *)
Definition load_trainstats (obj : list (string * json)) : result trainstats :=
  let* te := json_float (default (JInt 0) (json_get obj "total_epochs")) in
  let* tt := json_float (default (JInt 0) (json_get obj "train_time")) in
  let* im := json_int (default (JInt 0) (json_get obj "impatience")) in
  let* vr := json_reports (default (JArr []) (json_get obj "valid_reports")) in
  Ok (mk_trainstats te tt im vr).

(** Lines 406-418: stats of a preempted run, when its file is there. *)
Definition init_trainstats (opt : gmap string value) (fs : filesystem)
    (trainstats_suffix : string) : result (option trainstats) :=
  if truthy (opt_get opt "model_file") then
    let* mf := as_str (opt_get opt "model_file") in
    match files fs !! (mf +:+ trainstats_suffix) with
    | Some (FJson (JObj obj)) =>
        let* ts := load_trainstats obj in Ok (Some ts)
    | Some _ => Raise ValueError
    | None => Ok None
    end
  else Ok None.

(** [TrainLoop.__init__].  Building the dictionary and creating the agent
    and the world (lines 343-353) are the collaborators' work. *)
Definition TrainLoop_init (opt0 : gmap string value) (fs : filesystem)
  : result TrainLoop :=
  let* '(opt1, trainstats_suffix) := init_trainstats_suffix opt0 fs in
  let* _ := init_check_paths opt1 in
  let* e := positive_or_inf opt1 "num_epochs" in
  let* t := positive_or_inf opt1 "max_train_time" in
  let* l := positive_or_inf opt1 "log_every_n_secs" in
  let* v := positive_or_inf opt1 "validation_every_n_secs" in
  let* s := positive_or_inf opt1 "save_every_n_secs" in
  let* ve := positive_or_inf opt1 "validation_every_n_epochs" in
  let* opt2 := init_validation_metric_mode opt1 in
  let* optim := init_valid_optim opt2 in
  let* best := init_best_valid opt2 fs in
  let* stats := init_trainstats opt2 fs trainstats_suffix in
  let* _ := opt_index opt2 "tensorboard_log" in
  Ok {| opt := opt2;
        parleys := 0;
        max_num_epochs := e;
        max_train_time := t;
        log_every_n_secs := l;
        val_every_n_secs := v;
        save_every_n_secs := s;
        val_every_n_epochs := ve;
        last_valid_epoch := 0;
        valid_optim := optim;
        valid_reports := from_option ts_valid_reports [] stats;
        best_valid := best;
        impatience := from_option ts_impatience 0 stats;
        saved := false;
        _preempted_epochs := from_option ts_total_epochs 0%Q stats;
        train_time_total := from_option ts_train_time 0%Q stats;
        _total_epochs := 0 |}.

(** ** Collaborators *)

(** The distributed runtime and the clocks, as seen by one worker at one
    point of the run. *)
Record env : Type := mk_env {
  num_workers : Z;
  get_rank : Z;
  is_primary_worker : bool;
  is_distributed : bool;
  world_total_epochs : Q;       (* [self.world.get_total_epochs()] *)
  train_time_now : Q            (* [self.train_time.time()] *)
}.

(** A report entry: a [Metric] object or a raw number. *)
Inductive metric : Type :=
| Metric (v : Q)
| Raw (v : Q).

Abbreviation report := (gmap string metric).

Definition metric_value (m : metric) : Q :=
  match m with
  | Metric v => v
  | Raw v => v
  end.

(** [TrainLoop._values_only] *)
Definition _values_only (r : report) : values_report := metric_value <$> r.

(** [parlai.core.metrics] and [parlai.utils.misc], used as given. *)
Class Metrics : Type := {
  aggregate_named_reports : gmap string report -> report;
  aggregate_unnamed_reports : list report -> report;
  nice_report : report -> report;
  format_report : report -> string;
  all_gather_list : report -> list report
}.

(** A task world, the data source of training and evaluation. *)
Class World (W : Type) : Type := {
  reset : W -> W;
  parley : W -> W;
  epoch_done : W -> bool;
  world_report : W -> report;
  batchsize : W -> Z;
  getID : W -> string
}.

(** ** Saving *)

Definition json_of_report (r : values_report) : json :=
  JObj (prod_map id JFloat <$> map_to_list r).

(** The object handed to [json.dump] by [_save_train_stats]. *)
Definition trainstats_json (self : TrainLoop) (e : env) : json :=
  JObj [ ("train_time"%string, JFloat (train_time_now e));
         ("total_epochs"%string,
          JFloat (_preempted_epochs self
                  + inject_Z (num_workers e) * world_total_epochs e)%Q);
         ("impatience"%string, JInt (impatience self));
         ("valid_reports"%string, JArr (json_of_report <$> valid_reports self)) ].

(** [fn = self.opt['model_file']; if suffix: fn += suffix] *)
Definition save_path (self : TrainLoop) (suffix : option string) : result string :=
  let* v := opt_index (opt self) "model_file" in
  let* mf := as_str v in
  Ok (match suffix with
      | Some s => mf +:+ s
      | None => mf
      end).

(** [TrainLoop._save_train_stats] *)
Definition _save_train_stats (self : TrainLoop) (e : env) (suffix : option string)
    (fs : filesystem) : result filesystem :=
  let* fn := save_path self suffix in
  write_file fs (fn +:+ ".trainstats") (FJson (trainstats_json self e)).

(** [self.agent.save(fn)]: the agent writes its snapshot. *)
Definition agent_save (fn : string) (fs : filesystem) : result filesystem :=
  write_file fs fn FModel.

(** What an asynchronous signal does to one pass through the [try] body of
    [save_model]: nothing, or an exception raised while [agent.save] runs,
    or one raised while [_save_train_stats] runs. *)
Inductive interruption : Type :=
| NoSignal
| DuringAgentSave (e : exn)
| DuringSaveTrainStats (e : exn).

(** One pass through the [try] body, lines 440-441. *)
Definition save_attempt (self : TrainLoop) (e : env) (suffix : option string)
    (fn : string) (i : interruption) (fs : filesystem)
  : filesystem * result unit :=
  match i with
  | DuringAgentSave x => (fs, Raise x)
  | DuringSaveTrainStats x =>
      match agent_save fn fs with
      | Ok fs1 => (fs1, Raise x)
      | Raise x' => (fs, Raise x')
      end
  | NoSignal =>
      match agent_save fn fs with
      | Ok fs1 =>
          match _save_train_stats self e suffix fs1 with
          | Ok fs2 => (fs2, Ok tt)
          | Raise x => (fs1, Raise x)
          end
      | Raise x => (fs, Raise x)
      end
  end.

(** The [while True] loop of [save_model], lines 437-444.  [signals] lists
    what happens to the successive attempts; after the last listed one no
    signal arrives. *)
Fixpoint save_model_loop (self : TrainLoop) (e : env) (suffix : option string)
    (fn : string) (signals : list interruption) (fs : filesystem)
  : filesystem * result unit :=
  match signals with
  | [] => save_attempt self e suffix fn NoSignal fs
  | i :: rest =>
      match save_attempt self e suffix fn i fs with
      | (fs', Raise KeyboardInterrupt) =>
          save_model_loop self e suffix fn rest fs'
      | r => r
      end
  end.

(** [TrainLoop.save_model] *)
Definition save_model (self : TrainLoop) (e : env) (suffix : option string)
    (signals : list interruption) (fs : filesystem)
  : filesystem * result unit :=
  if negb (is_primary_worker e) then (fs, Ok tt)
  else if negb (truthy (opt_get (opt self) "model_file")) then (fs, Ok tt)
  else
    match save_path self suffix with
    | Ok fn => save_model_loop self e suffix fn signals fs
    | Raise x => (fs, Raise x)
    end.

(** [_save_best_valid] *)
Definition _save_best_valid (model_file : string) (best_valid : Q)
    (fs : filesystem) : result filesystem :=
  write_file fs (model_file +:+ ".best_valid") (FNum best_valid).

(** ** [_compute_eta] *)

Definition _compute_eta (self : TrainLoop) (epochs_completed time_elapsed : Q)
  : result (option Q) :=
  let eta : option Q := None in
  let* max_epochs := as_num (opt_get_default (opt self) "num_epochs" (VNum 0)) in
  let eta :=
    if Qgtb max_epochs 0 && Qgtb epochs_completed 0 then
      let epoch_progress := (epochs_completed / max_epochs)%Q in
      Some ((1 - epoch_progress) * time_elapsed / epoch_progress)%Q
    else eta in
  let* max_training_time :=
    as_num (opt_get_default (opt self) "max_training_time" (VNum (-1))) in
  Ok (if Qgtb max_training_time 0 then
        let time_left := (max_training_time - time_elapsed)%Q in
        match eta with
        | None => Some time_left
        | Some x => if Qltb time_left x then Some time_left else Some x
        end
      else eta).

(** ** Evaluation *)

(** [cnt < max_cnt], where [max_cnt] may be [float('inf')]. *)
Definition lt_ext (x : Q) (t : ext) : bool :=
  match t with
  | Fin q => Qltb x q
  | PInf => true
  end.

(** [max_cnt = max_exs if max_exs > 0 else float('inf')] *)
Definition max_cnt_of (max_exs : Q) : ext :=
  if Qgtb max_exs 0 then Fin max_exs else PInf.

(** The [while] loop of [_run_single_eval], lines 248-253; [None] when
    [fuel] iterations were not enough. *)
Fixpoint eval_loop {W : Type} `{World W} (fuel : nat) (opt : gmap string value)
    (max_cnt : ext) (valid_world : W) (cnt : Z) : option (result (W * Z)) :=
  if negb (epoch_done valid_world) && lt_ext (inject_Z cnt) max_cnt then
    match fuel with
    | O => None
    | S fuel' =>
        let w1 := parley valid_world in
        match (if cnt =? 0 then opt_index opt "display_examples"
               else Ok VNone) with
        | Raise x => Some (Raise x)
        | Ok _ => eval_loop fuel' opt max_cnt w1 (cnt + batchsize w1)
        end
    end
  else Some (Ok (valid_world, cnt)).

(** [_run_single_eval]: the world after the pass and its report. *)
Definition _run_single_eval {W : Type} `{World W} (fuel : nat)
    (opt : gmap string value) (valid_world : W) (max_exs : Q)
  : option (result (W * report)) :=
  let w0 := reset valid_world in
  let cnt := 0 in
  let max_cnt := max_cnt_of max_exs in
  match eval_loop fuel opt max_cnt w0 cnt with
  | None => None
  | Some (Raise x) => Some (Raise x)
  | Some (Ok (w1, _)) =>
      let valid_report := world_report w1 in
      Some (Ok (reset w1, valid_report))
  end.

(** The [for v_world in valid_worlds] loop of [run_eval], lines 283-285. *)
Fixpoint run_eval_worlds {W : Type} `{World W} (fuel : nat)
    (opt : gmap string value) (worlds : list W) (per_world : Q)
  : option (result (list W * list report)) :=
  match worlds with
  | [] => Some (Ok ([], []))
  | w :: rest =>
      match _run_single_eval fuel opt w per_world with
      | None => None
      | Some (Raise x) => Some (Raise x)
      | Some (Ok (w', task_report)) =>
          match run_eval_worlds fuel opt rest per_world with
          | None => None
          | Some (Raise x) => Some (Raise x)
          | Some (Ok (ws, reports)) => Some (Ok (w' :: ws, task_report :: reports))
          end
      end
  end.

(** [dict(zip(tasks, reports))]: a later pair replaces an earlier one. *)
Definition dict_zip (tasks : list string) (reports : list report)
  : gmap string report :=
  list_to_map (reverse (zip tasks reports)).

(** [run_eval].  The worlds are handed back because the pass resets them. *)
Definition run_eval {W : Type} `{World W} `{Metrics} (fuel : nat)
    (valid_worlds : option (list W)) (opt : gmap string value)
    (datatype : string) (max_exs : Q) (write_log : bool) (fs : filesystem)
  : option (result (option (list W) * option report * filesystem)) :=
  match valid_worlds with
  | None => Some (Ok (None, None, fs))
  | Some worlds =>
      match run_eval_worlds fuel opt worlds
              (max_exs / inject_Z (Z.of_nat (length worlds)))%Q with
      | None => None
      | Some (Raise x) => Some (Raise x)
      | Some (Ok (worlds', reports)) =>
          let tasks := getID <$> worlds' in
          let named_reports := dict_zip tasks reports in
          let report := nice_report (aggregate_named_reports named_reports) in
          let metrics := (datatype +:+ ":" +:+ format_report report)%string in
          if write_log && truthy (opt_get opt "model_file") then
            Some (let* mf := as_str (opt_get opt "model_file") in
                  let* fs' := append_line fs (mf +:+ "." +:+ datatype) metrics in
                  Ok (Some worlds', Some report, fs'))
          else Some (Ok (Some worlds', Some report, fs))
      end
  end.

(** ** Validation *)

(** [TrainLoop._sync_metrics] *)
Definition _sync_metrics `{Metrics} (e : env) (metrics : report) : report :=
  if negb (is_distributed e) then metrics
  else aggregate_unnamed_reports (all_gather_list metrics).

(** Lines 482-484 of [validate]: the local [max_exs]. *)
Definition validate_max_exs (validation_max_exs : Z) (e : env) : Z :=
  let max_exs := validation_max_exs / num_workers e in
  max_exs + Z.b2z (validation_max_exs mod num_workers e <? get_rank e).

Definition as_int (v : value) : result Z :=
  match v with
  | VNum q => if (Qden q =? 1)%positive then Ok (Qnum q) else Raise TypeError
  | VBool b => Ok (Z.b2z b)
  | VNone | VStr _ => Raise TypeError
  end.

(** Lines 482-487 of [validate]: the validation pass of this worker.  The
    local [max_exs] is computed, and [run_eval] is called with
    [opt['validation_max_exs']]. *)
Definition validate_eval {W : Type} `{World W} `{Metrics} (fuel : nat)
    (self : TrainLoop) (e : env) (valid_worlds : list W) (fs : filesystem)
  : option (result (list W * report)) :=
  match (let* v := opt_index (opt self) "validation_max_exs" in as_int v) with
  | Raise x => Some (Raise x)
  | Ok vme =>
      let max_exs := validate_max_exs vme e in
      match run_eval fuel (Some valid_worlds) (opt self) "valid"
              (inject_Z vme) false fs with
      | None => None
      | Some (Raise x) => Some (Raise x)
      | Some (Ok (Some ws, Some r, _)) => Some (Ok (ws, _sync_metrics e r))
      | Some (Ok _) => Some (Raise TypeError)
      end
  end.

Definition set_valid_reports (self : TrainLoop) (x : list values_report) : TrainLoop :=
  mk_TrainLoop (opt self) (parleys self) (max_num_epochs self)
    (max_train_time self) (log_every_n_secs self) (val_every_n_secs self)
    (save_every_n_secs self) (val_every_n_epochs self) (last_valid_epoch self)
    (valid_optim self) x (best_valid self) (impatience self) (saved self)
    (_preempted_epochs self) (train_time_total self) (_total_epochs self).

Definition set_best_valid (self : TrainLoop) (x : option Q) : TrainLoop :=
  mk_TrainLoop (opt self) (parleys self) (max_num_epochs self)
    (max_train_time self) (log_every_n_secs self) (val_every_n_secs self)
    (save_every_n_secs self) (val_every_n_epochs self) (last_valid_epoch self)
    (valid_optim self) (valid_reports self) x (impatience self) (saved self)
    (_preempted_epochs self) (train_time_total self) (_total_epochs self).

Definition set_impatience (self : TrainLoop) (x : Z) : TrainLoop :=
  mk_TrainLoop (opt self) (parleys self) (max_num_epochs self)
    (max_train_time self) (log_every_n_secs self) (val_every_n_secs self)
    (save_every_n_secs self) (val_every_n_epochs self) (last_valid_epoch self)
    (valid_optim self) (valid_reports self) (best_valid self) x (saved self)
    (_preempted_epochs self) (train_time_total self) (_total_epochs self).

Definition set_saved (self : TrainLoop) (x : bool) : TrainLoop :=
  mk_TrainLoop (opt self) (parleys self) (max_num_epochs self)
    (max_train_time self) (log_every_n_secs self) (val_every_n_secs self)
    (save_every_n_secs self) (val_every_n_epochs self) (last_valid_epoch self)
    (valid_optim self) (valid_reports self) (best_valid self) (impatience self) x
    (_preempted_epochs self) (train_time_total self) (_total_epochs self).

Definition set_last_valid_epoch (self : TrainLoop) (x : Q) : TrainLoop :=
  mk_TrainLoop (opt self) (parleys self) (max_num_epochs self)
    (max_train_time self) (log_every_n_secs self) (val_every_n_secs self)
    (save_every_n_secs self) (val_every_n_epochs self) x
    (valid_optim self) (valid_reports self) (best_valid self) (impatience self)
    (saved self) (_preempted_epochs self) (train_time_total self)
    (_total_epochs self).

Definition set_progress (self : TrainLoop) (p : Z) (epochs : Q) : TrainLoop :=
  mk_TrainLoop (opt self) p (max_num_epochs self)
    (max_train_time self) (log_every_n_secs self) (val_every_n_secs self)
    (save_every_n_secs self) (val_every_n_epochs self) (last_valid_epoch self)
    (valid_optim self) (valid_reports self) (best_valid self) (impatience self)
    (saved self) (_preempted_epochs self) (train_time_total self) epochs.

(** [valid_report[opt['validation_metric']]], unwrapped when a [Metric]. *)
Definition report_index (r : report) (k : string) : result Q :=
  match r !! k with
  | Some m => Ok (metric_value m)
  | None => Raise (KeyError k)
  end.

(** A report has string keys: indexing it with anything else is a
    [KeyError]. *)
Definition as_key (v : value) : result string :=
  match v with
  | VStr s => Ok s
  | _ => Raise (KeyError "")
  end.

(** The test of lines 514-517. *)
Definition is_new_best (self : TrainLoop) (new_valid : Q) : bool :=
  match best_valid self with
  | None => true
  | Some best =>
      Qgtb (inject_Z (valid_optim self) * new_valid)
           (inject_Z (valid_optim self) * best)
  end.

(** [save_model] as a step of the error monad. *)
Definition do_save_model (self : TrainLoop) (e : env) (suffix : option string)
    (fs : filesystem) : result filesystem :=
  match save_model self e suffix [] fs with
  | (fs', Ok _) => Ok fs'
  | (_, Raise x) => Raise x
  end.

(** Lines 488-559 of [validate]: what is done with the synced report.
    Returns the loop, the disk and the stop flag.  Logging to tensorboard
    and [agent.receive_metrics] act on collaborators only. *)
Definition validate_record (self : TrainLoop) (e : env) (valid_report : report)
    (fs : filesystem) : result (TrainLoop * filesystem * bool) :=
  let o := opt self in
  let v := <["train_time" := Raw (train_time_now e)]> valid_report in
  let self := set_valid_reports self (valid_reports self ++ [_values_only v]) in
  let* _ := opt_index o "tensorboard_log" in
  let* fs :=
    if truthy (opt_get o "model_file") && truthy (opt_get o "save_after_valid")
       && is_primary_worker e
    then do_save_model self e (Some ".checkpoint"%string) fs
    else Ok fs in
  let* vm := opt_index o "validation_metric" in
  let* key := as_key vm in
  let* new_valid := report_index valid_report key in
  let check_patience (self : TrainLoop) (fs : filesystem) :=
    let* vp := opt_index o "validation_patience" in
    let* patience := as_num vp in
    if Qgtb patience 0 && Qgeb (inject_Z (impatience self)) patience
    then Ok (self, fs, true)
    else Ok (self, fs, false) in
  if is_new_best self new_valid then
    let self := set_best_valid self (Some new_valid) in
    let self := set_impatience self 0 in
    let* '(self, fs) :=
      if truthy (opt_get o "model_file") && is_primary_worker e then
        let* fs := do_save_model self e None fs in
        let* mf := as_str (opt_get o "model_file") in
        let* fs := _save_best_valid mf new_valid fs in
        Ok (set_saved self true, fs)
      else Ok (self, fs) in
    if String.eqb key "accuracy" then
      let* vc := opt_index o "validation_cutoff" in
      let* cutoff := as_num vc in
      if Qgeb new_valid cutoff then Ok (self, fs, true)
      else check_patience self fs
    else check_patience self fs
  else
    let self := set_impatience self (impatience self + 1) in
    check_patience self fs.

(** [TrainLoop.validate], with the worlds already loaded. *)
Definition validate {W : Type} `{World W} `{Metrics} (fuel : nat)
    (self : TrainLoop) (e : env) (valid_worlds : list W) (fs : filesystem)
  : option (result (TrainLoop * list W * filesystem * bool)) :=
  match validate_eval fuel self e valid_worlds fs with
  | None => None
  | Some (Raise x) => Some (Raise x)
  | Some (Ok (ws, valid_report)) =>
      Some (let* '(self', fs', stop) := validate_record self e valid_report fs in
            Ok (self', ws, fs', stop))
  end.

(** ** The training loop *)

(** The timer readings of one iteration: the first three are the primary
    worker's, as broadcast by [sync_object]; [save_time] is read locally. *)
Record timings : Type := mk_timings {
  t_train_time : Q;
  t_log_time : Q;
  t_validate_time : Q;
  t_save_time : Q
}.

(** What an iteration does besides updating the loop object. *)
Inductive action : Type :=
| ActLog                      (* [self.log()] *)
| ActPrintNumEpochsCompleted  (* [[ num_epochs completed:... ]] *)
| ActPrintMaxTrainTimeElapsed (* [[ max_train_time elapsed:... ]] *)
| ActValidate                 (* [self.validate()] *)
| ActSaveCheckpoint.          (* [self.save_model('.checkpoint')] *)

Inductive control : Type :=
| Continue
| Break.

Record iteration {W : Type} : Type := mk_iteration {
  it_self : TrainLoop;
  it_worlds : list W;
  it_fs : filesystem;
  it_actions : list action;
  it_control : control
}.

Arguments iteration W : clear implicits.

(** The trigger of line 671. *)
Definition epochs_exhausted (self : TrainLoop) : bool :=
  ge_ext (_total_epochs self) (max_num_epochs self).

(** The trigger of line 679. *)
Definition time_exhausted (self : TrainLoop) (t : timings) : bool :=
  gt_ext (t_train_time t) (max_train_time self).

(** The trigger of line 682. *)
Definition log_due (self : TrainLoop) (t : timings) : bool :=
  gt_ext (t_log_time t) (log_every_n_secs self).

(** The trigger of lines 684-688. *)
Definition validation_due (self : TrainLoop) (t : timings) : bool :=
  gt_ext (t_validate_time t) (val_every_n_secs self)
  || ge_ext (_total_epochs self - last_valid_epoch self)%Q (val_every_n_epochs self).

(** The trigger of lines 701-705. *)
Definition checkpoint_due (self : TrainLoop) (e : env) (t : timings) : bool :=
  gt_ext (t_save_time t) (save_every_n_secs self)
  && truthy (opt_get (opt self) "model_file")
  && is_primary_worker e.

(** Lines 701-712: the periodic checkpoint that ends an iteration. *)
Definition train_checkpoint {W : Type} (self : TrainLoop) (e : env) (t : timings)
    (worlds : list W) (fs : filesystem) (acts : list action)
  : result (iteration W) :=
  if checkpoint_due self e t then
    let* fs' := do_save_model self e (Some ".checkpoint"%string) fs in
    Ok (mk_iteration W self worlds fs' (acts ++ [ActSaveCheckpoint]) Continue)
  else Ok (mk_iteration W self worlds fs acts Continue).

(** A [StopTrainException] ends the loop, except in distributed mode. *)
Definition on_stop_train {W : Type} (e : env) (it : iteration W)
  : result (iteration W) :=
  if is_distributed e then
    Raise (RuntimeError "StopTrainException not supported for distributed mode")
  else Ok it.

(** Lines 651-657: the counters after a training step. *)
Definition progressed (self : TrainLoop) (e : env) : TrainLoop :=
  set_progress self (parleys self + 1)
    (_preempted_epochs self + inject_Z (num_workers e) * world_total_epochs e)%Q.

(** One iteration of the [while True] of [TrainLoop.train], lines 641-712.
    [step] is the outcome of [world.parley()].  The derived display counter
    [_total_exs] is left out. *)
Definition train_iteration {W : Type} `{World W} `{Metrics} (fuel : nat)
    (self : TrainLoop) (e : env) (t : timings) (step : result unit)
    (valid_worlds : list W) (fs : filesystem)
  : option (result (iteration W)) :=
  match step with
  | Raise StopTrainException =>
      Some (on_stop_train e (mk_iteration W self valid_worlds fs [] Break))
  | Raise x => Some (Raise x)
  | Ok _ =>
      let self := progressed self e in
      if epochs_exhausted self then
        Some (Ok (mk_iteration W self valid_worlds fs
                    [ActLog; ActPrintNumEpochsCompleted] Break))
      else if time_exhausted self t then
        Some (Ok (mk_iteration W self valid_worlds fs
                    [ActPrintMaxTrainTimeElapsed] Break))
      else
        let acts := if log_due self t then [ActLog] else [] in
        if validation_due self t then
          match validate fuel self e valid_worlds fs with
          | None => None
          | Some (Raise StopTrainException) =>
              Some (on_stop_train e
                      (mk_iteration W self valid_worlds fs
                         (acts ++ [ActValidate]) Break))
          | Some (Raise x) => Some (Raise x)
          | Some (Ok (self', ws, fs', stop_training)) =>
              let self' := set_last_valid_epoch self' (_total_epochs self') in
              if stop_training then
                Some (Ok (mk_iteration W self' ws fs'
                            (acts ++ [ActValidate]) Break))
              else
                Some (train_checkpoint self' e t ws fs' (acts ++ [ActValidate]))
          end
        else Some (train_checkpoint self e t valid_worlds fs acts)
  end.

(** ** Loading the evaluation worlds *)

(** [needle in s] for two strings. *)
Definition substring_of (needle s : string) : bool :=
  match String.index 0 needle s with
  | Some _ => true
  | None => false
  end.

(** The separator of task lists, [',']. *)
Definition comma : Ascii.ascii := Ascii.ascii_of_nat 44.

(** [s.split(sep)] for a one-character separator. *)
Fixpoint split_on (sep : Ascii.ascii) (s : string) : list string :=
  match s with
  | EmptyString => [EmptyString]
  | String c r =>
      if Ascii.eqb c sep then EmptyString :: split_on sep r
      else match split_on sep r with
           | h :: t => String c h :: t
           | [] => [String c EmptyString]
           end
  end.

(** [sep.join(l)] *)
Fixpoint join_with (sep : Ascii.ascii) (l : list string) : string :=
  match l with
  | [] => EmptyString
  | [s] => s
  | s :: rest => (s +:+ String sep (join_with sep rest))%string
  end.

(** Lines 209-223 of [load_eval_worlds]: the options of the evaluation,
    a copy of the caller's with the overrides applied. *)
Definition eval_opt (opt : gmap string value) (datatype : string)
  : result (gmap string value) :=
  let* dt := opt_index opt "datatype" in
  let* dts := as_str dt in
  let datatype :=
    if substring_of "stream" dts then (datatype +:+ ":stream")%string
    else datatype in
  let opt := <["datatype" := VStr datatype]> opt in
  let opt :=
    if truthy (opt_get opt "pytorch_teacher_task") then
      delete "pytorch_teacher_task"
        (<["task" := opt_get opt "pytorch_teacher_task"]> opt)
    else opt in
  let opt :=
    if truthy (opt_get opt "evaltask") then
      <["task" := opt_get opt "evaltask"]> opt
    else opt in
  let opt :=
    if truthy (opt_get opt "eval_batchsize") then
      <["batchsize" := opt_get opt "eval_batchsize"]> opt
    else opt in
  Ok opt.

(** [load_eval_worlds].  [create_task task_opt shared] stands for
    [create_task(task_opt, valid_agent)], [shared] telling whether the
    agent is a shared copy.  Splitting a task that is not a string is a
    [TypeError] here (an [AttributeError] in Python). *)
Definition load_eval_worlds {W : Type}
    (create_task : gmap string value -> bool -> W)
    (opt : gmap string value) (datatype : string) : result (list W) :=
  let* opt := eval_opt opt datatype in
  let* t := opt_index opt "task" in
  let* ts := as_str t in
  let tasks := split_on comma ts in
  let shared :=
    truthy (opt_get_default opt "validation_share_agent" (VBool false)) in
  Ok ((fun task => create_task (<["task" := VStr task]> opt) shared) <$> tasks).

(** ** The whole run *)

(** What one pass through the [while True] of [train] meets: the runtime,
    the timer readings and the outcome of [world.parley()]. *)
Record tick : Type := mk_tick {
  tick_env : env;
  tick_timings : timings;
  tick_step : result unit
}.

(** The [while True] loop of [train], lines 640-712, over the ticks it
    meets; [None] when they run out before the loop breaks.  The result
    carries the actions of all the iterations. *)
Fixpoint train_loop {W : Type} `{World W} `{Metrics} (fuel : nat)
    (self : TrainLoop) (ticks : list tick) (valid_worlds : list W)
    (fs : filesystem) (done : list action)
  : option (result (TrainLoop * list W * filesystem * list action)) :=
  match ticks with
  | [] => None
  | k :: rest =>
      match train_iteration fuel self (tick_env k) (tick_timings k)
              (tick_step k) valid_worlds fs with
      | None => None
      | Some (Raise x) => Some (Raise x)
      | Some (Ok it) =>
          match it_control it with
          | Break =>
              Some (Ok (it_self it, it_worlds it, it_fs it,
                        done ++ it_actions it))
          | Continue =>
              train_loop fuel (it_self it) rest (it_worlds it) (it_fs it)
                (done ++ it_actions it)
          end
      end
  end.

(** Line 722: the cap of the final evaluations. *)
Definition final_max_exs (opt : gmap string value) : result Q :=
  if truthy (opt_get opt "short_final_eval") then
    let* v := opt_index opt "validation_max_exs" in as_num v
  else Ok (-1)%Q.

(** Lines 714-735 of [train]: the last save, and the final evaluations on
    the validation and the test data.  Reloading the agent and shutting
    the worlds down are the collaborators' work. *)
Definition train_finalize {W : Type} `{World W} `{Metrics}
    (create_task : gmap string value -> bool -> W) (fuel : nat)
    (self : TrainLoop) (e : env) (fs : filesystem)
  : option (result (option report * option report * filesystem)) :=
  let o := opt self in
  match (if negb (saved self) && is_primary_worker e
         then do_save_model self e None fs else Ok fs) with
  | Raise x => Some (Raise x)
  | Ok fs1 =>
      match (let* ws := load_eval_worlds create_task o "valid" in
             let* m := final_max_exs o in Ok (ws, m)) with
      | Raise x => Some (Raise x)
      | Ok (valid_worlds, max_exs) =>
          match run_eval fuel (Some valid_worlds) o "valid" max_exs true fs1 with
          | None => None
          | Some (Raise x) => Some (Raise x)
          | Some (Ok (_, v_report, fs2)) =>
              match load_eval_worlds create_task o "test" with
              | Raise x => Some (Raise x)
              | Ok test_worlds =>
                  match run_eval fuel (Some test_worlds) o "test" max_exs
                          true fs2 with
                  | None => None
                  | Some (Raise x) => Some (Raise x)
                  | Some (Ok (_, t_report, fs3)) =>
                      Some (Ok (v_report, t_report, fs3))
                  end
              end
          end
      end
  end.

(** [TrainLoop.train], with the validation worlds of the loop already
    loaded; [final] is the runtime at the end of the loop. *)
Definition train {W : Type} `{World W} `{Metrics}
    (create_task : gmap string value -> bool -> W) (fuel : nat)
    (self : TrainLoop) (ticks : list tick) (final : env)
    (valid_worlds : list W) (fs : filesystem)
  : option (result (option report * option report * filesystem)) :=
  match train_loop fuel self ticks valid_worlds fs [] with
  | None => None
  | Some (Raise x) => Some (Raise x)
  | Some (Ok (self', _, fs', _)) => train_finalize create_task fuel self' final fs'
  end.

(** ** Runs of validations *)

(** The loop objects after each of a sequence of validations, given the
    synced report and the runtime of each. *)
Fixpoint validation_run (self : TrainLoop) (steps : list (env * report))
    (fs : filesystem) : result (list TrainLoop) :=
  match steps with
  | [] => Ok []
  | (e, valid_report) :: rest =>
      let* '(self', fs', _) := validate_record self e valid_report fs in
      let* tl := validation_run self' rest fs' in
      Ok (self' :: tl)
  end.


(** ** The state of an evaluation pass after [n] batch-steps *)

Fixpoint eval_state {W : Type} `{World W} (n : nat) (w : W) : W * Z :=
  match n with
  | O => (w, 0)
  | S n' =>
      let '(w', cnt) := eval_state n' w in
      (parley w', cnt + batchsize (parley w'))
  end.

(** The specification's stopping condition of a pass: the source signals
    that its pass is complete, or a positive [max_exs] is reached. *)
Definition pass_stops {W : Type} `{World W} (max_exs : Q) (s : W * Z) : Prop :=
  epoch_done s.1 = true \/ ((0 < max_exs)%Q /\ (max_exs <= inject_Z s.2)%Q).

(** ** A small world for examples: a counter over [cw_size] examples *)

Record counter_world : Type := mk_counter_world {
  cw_size : Z;        (* examples in one pass *)
  cw_batchsize : Z;
  cw_seen : Z;        (* examples seen in the current pass *)
  cw_parleys : Z      (* batch-steps ever taken; survives [reset] *)
}.

#[export] Instance counter_world_World : World counter_world := {|
  reset w := mk_counter_world (cw_size w) (cw_batchsize w) 0 (cw_parleys w);
  parley w := mk_counter_world (cw_size w) (cw_batchsize w)
                (cw_seen w + cw_batchsize w) (cw_parleys w + 1);
  epoch_done w := cw_size w <=? cw_seen w;
  world_report w := {[ "exs"%string := Raw (inject_Z (cw_seen w)) ]};
  batchsize w := cw_batchsize w;
  getID w := "counter"%string
|}.

(** Collaborators for examples: one report stands for all. *)
Definition first_report (m : gmap string report) : report :=
  match map_to_list m with
  | (_, r) :: _ => r
  | [] => ∅
  end.

Definition plain_metrics : Metrics := {|
  aggregate_named_reports := first_report;
  aggregate_unnamed_reports l := default ∅ (head l);
  nice_report r := r;
  format_report _ := "{}"%string;
  all_gather_list r := [r]
|}.

(** ** Notions used by the properties *)

(** An attempt that a [KeyboardInterrupt] cuts short. *)
Inductive interrupted : interruption -> Prop :=
| interrupted_agent_save : interrupted (DuringAgentSave KeyboardInterrupt)
| interrupted_train_stats : interrupted (DuringSaveTrainStats KeyboardInterrupt).

(** The four fields as [_save_train_stats] computes them. *)
Definition saved_trainstats (self : TrainLoop) (e : env) : trainstats :=
  mk_trainstats
    (_preempted_epochs self + inject_Z (num_workers e) * world_total_epochs e)%Q
    (train_time_now e) (impatience self) (valid_reports self).

(** The loop test of line 248. *)
Definition continues {W : Type} `{World W} (max_cnt : ext) (s : W * Z) : bool :=
  negb (epoch_done s.1) && lt_ext (inject_Z s.2) max_cnt.




(** The six thresholds of a loop object. *)
Definition thresholds_of (self : TrainLoop) : ext * ext * ext * ext * ext * ext :=
  (max_num_epochs self, max_train_time self, log_every_n_secs self,
   val_every_n_secs self, save_every_n_secs self, val_every_n_epochs self).


(** The task evaluated: [evaltask] when set, else [pytorch_teacher_task]
    when set, else [task]. *)
Definition eval_task (opt : gmap string value) : option value :=
  if truthy (opt_get opt "evaltask") then Some (opt_get opt "evaltask")
  else if truthy (opt_get opt "pytorch_teacher_task")
       then Some (opt_get opt "pytorch_teacher_task")
       else opt !! "task".

(** The number of separators in a string. *)
Fixpoint count_char (sep : Ascii.ascii) (s : string) : nat :=
  match s with
  | EmptyString => O
  | String c r => (if Ascii.eqb c sep then 1 else 0) + count_char sep r
  end.

(** The [saved] flag tells the truth about the disk. *)
Definition snapshot_kept (mf : string) (self : TrainLoop) (fs : filesystem)
  : Prop :=
  saved self = true -> files fs !! mf = Some FModel.

(** The report recorded for a validation. *)
Definition recorded_report (step : env * report) : values_report :=
  _values_only (<["train_time" := Raw (train_time_now step.1)]> step.2).

(** ** Options for examples *)

(** The defaults of [setup_args] (lines 66-187), with [tensorboard_log]
    and [model_file] as the parser's own groups leave them. *)
Definition setup_args_defaults : gmap string value :=
  list_to_map
    [ ("evaltask", VNone); ("eval_batchsize", VNone);
      ("display_examples", VBool false);
      ("num_epochs", VNum (-1)); ("max_train_time", VNum (-1));
      ("log_every_n_secs", VNum 2); ("validation_every_n_secs", VNum (-1));
      ("save_every_n_secs", VNum (-1)); ("save_after_valid", VBool false);
      ("validation_every_n_epochs", VNum (-1));
      ("validation_max_exs", VNum (-1)); ("short_final_eval", VBool false);
      ("validation_patience", VNum 10); ("validation_metric", VStr "accuracy");
      ("validation_metric_mode", VNone); ("validation_cutoff", VNum 1);
      ("load_from_checkpoint", VBool false);
      ("validation_share_agent", VBool false); ("metrics", VStr "default");
      ("tensorboard_log", VBool false); ("model_file", VNone) ]%string.

(** [-mf /tmp/model] on top of the defaults. *)
Definition example_opt : gmap string value :=
  <["model_file" := VStr "/tmp/model"]> setup_args_defaults.

(** [-vmt loss -vmm max]: a mode that contradicts the metric. *)
Definition loss_opt : gmap string value :=
  <["validation_metric" := VStr "loss"]>
    (<["validation_metric_mode" := VStr "max"]> example_opt).

Definition empty_fs : filesystem := mk_fs ∅ ∅.

(** [-eps 1 -ttim 60], and the loop [TrainLoop_init] builds for it. *)
Definition one_epoch_opt : gmap string value :=
  <["num_epochs" := VNum 1]> (<["max_train_time" := VNum 60]> example_opt).

Definition one_epoch_loop : TrainLoop :=
  mk_TrainLoop (<["validation_metric_mode" := VStr "max"]> one_epoch_opt)
    0 (Fin 1) (Fin 60) (Fin 2) PInf PInf PInf 0 1 [] None 0 false 0 0 0.

(** [-vme 10], built by [TrainLoop_init]. *)
Definition capped_validation_loop : TrainLoop :=
  mk_TrainLoop
    (<["validation_metric_mode" := VStr "max"]>
       (<["validation_max_exs" := VNum 10]> example_opt))
    0 PInf PInf (Fin 2) PInf PInf PInf 0 1 [] None 0 false 0 0 0.

(** [-eps 2 -ttim 5], built by [TrainLoop_init]. *)
Definition two_epochs_loop : TrainLoop :=
  mk_TrainLoop
    (<["validation_metric_mode" := VStr "max"]>
       (<["num_epochs" := VNum 2]> (<["max_train_time" := VNum 5]> example_opt)))
    0 (Fin 2) (Fin 5) (Fin 2) PInf PInf PInf 0 1 [] None 0 false 0 0 0.

(** [-ttim 100] and no epoch budget, built by [TrainLoop_init]. *)
Definition timed_loop : TrainLoop :=
  mk_TrainLoop
    (<["validation_metric_mode" := VStr "max"]>
       (<["max_train_time" := VNum 100]> example_opt))
    0 PInf (Fin 100) (Fin 2) PInf PInf PInf 0 1 [] None 0 false 0 0 0.

(** A disk on which the validation log of [/tmp/model] cannot be opened. *)
Definition unwritable_log_fs : filesystem :=
  mk_fs ∅ {[ "/tmp/model.valid"%string ]}.

(** Worker [rank] of [n] in a distributed run. *)
Definition worker (n rank : Z) : env :=
  mk_env n rank (rank =? 0) true 0 0.

(** One worker, [epochs] epochs done, [secs] seconds of training. *)
Definition single_worker (epochs secs : Q) : env :=
  mk_env 1 0 true false epochs secs.

(** The one-epoch loop after two validations, the second one without
    improvement. *)
Definition midrun_loop : TrainLoop :=
  mk_TrainLoop (opt one_epoch_loop) 7 (Fin 1) (Fin 60) (Fin 2) PInf PInf PInf 0 1
    [ {[ "accuracy"%string := (1 # 2)%Q; "train_time"%string := 5%Q ]};
      {[ "accuracy"%string := (2 # 5)%Q; "train_time"%string := 9%Q ]} ]
    (Some (1 # 2)%Q) 1 true (1 # 4) 0 (3 # 4).

(** What [_save_train_stats] makes of an empty disk for [midrun_loop],
    after half an epoch more and 42 s of training. *)
Definition midrun_saved_fs : filesystem :=
  mk_fs {[ "/tmp/model.trainstats"%string :=
             FJson (trainstats_json midrun_loop
                      (single_worker (1 # 2) 42)) ]} ∅.

(** [-vp 2], built by [TrainLoop_init]. *)
Definition patient_loop : TrainLoop :=
  mk_TrainLoop
    (<["validation_metric_mode" := VStr "max"]>
       (<["validation_patience" := VNum 2]> example_opt))
    0 PInf PInf (Fin 2) PInf PInf PInf 0 1 [] None 0 false 0 0 0.

(** Three validations with accuracies 0.5, 0.4 and 0.3. *)
Definition scenario_b_steps : list (env * report) :=
  (fun v => (single_worker 0 0, ({[ "accuracy"%string := Metric v ]} : report)))
  <$> [(1 # 2)%Q; (2 # 5)%Q; (3 # 10)%Q].

(** The loop after each of them. *)
Definition scenario_b_states : list TrainLoop :=
  match validation_run patient_loop scenario_b_steps empty_fs with
  | Ok states => states
  | Raise _ => []
  end.

(** [-t babi:Task10k:1,squad] with the datatype of training, on top of
    [-eps 1 -ttim 60]. *)
Definition run_opt : gmap string value :=
  <["datatype" := VStr "train"]>
    (<["task" := VStr "babi:Task10k:1,squad"]> (opt one_epoch_loop)).

(** The one-epoch loop with these options. *)
Definition run_loop : TrainLoop :=
  mk_TrainLoop run_opt 0 (Fin 1) (Fin 60) (Fin 2) PInf PInf PInf 0 1 [] None 0
    false 0 0 0.

(** A task of three examples, whatever the options. *)
Definition three_examples (task_opt : gmap string value) (shared : bool)
  : counter_world :=
  mk_counter_world 3 1 0 0.

(** The options of [run_loop] as the command line gives them. *)
Definition run_opt0 : gmap string value :=
  <["datatype" := VStr "train"]>
    (<["task" := VStr "babi:Task10k:1,squad"]> one_epoch_opt).

(** Two iterations of a single worker: half an epoch, then the whole. *)
Definition one_epoch_ticks : list tick :=
  [ mk_tick (single_worker (1 # 2) 5) (mk_timings 5 1 1 1) (Ok tt);
    mk_tick (single_worker 1 10) (mk_timings 10 1 1 1) (Ok tt) ].

(** The second of two workers, and the same run as it sees it. *)
Definition second_worker (epochs : Q) : env :=
  mk_env 2 1 false true epochs 0.

Definition second_worker_ticks : list tick :=
  [ mk_tick (second_worker (1 # 4)) (mk_timings 5 1 1 1) (Ok tt);
    mk_tick (second_worker (1 # 2)) (mk_timings 10 1 1 1) (Ok tt) ].

(** [timed_loop] with a budget under the key that [_compute_eta] reads. *)
Definition eta_capped_loop : TrainLoop :=
  mk_TrainLoop (<["max_training_time" := VNum 100]> (opt timed_loop))
    0 PInf (Fin 100) (Fin 2) PInf PInf PInf 0 1 [] None 0 false 0 0 0.

(** [-sval True] on top of [patient_loop]. *)
Definition checkpointing_loop : TrainLoop :=
  mk_TrainLoop (<["save_after_valid" := VBool true]> (opt patient_loop))
    0 PInf PInf (Fin 2) PInf PInf PInf 0 1 [] None 0 false 0 0 0.

(** * Properties *)

(** ** Comparisons and the error monad *)

Lemma Qltb_lt (x y : Q) : Qltb x y = true <-> (x < y)%Q.
Proof.
  unfold Qltb. rewrite negb_true_iff. split.
  - intros Hb. apply Qnot_le_lt. intros Hle.
    apply Qle_bool_iff in Hle. congruence.
  - intros Hlt. destruct (Qle_bool y x) eqn:Hb; [|reflexivity].
    apply Qle_bool_iff in Hb. exfalso. exact (Qlt_not_le _ _ Hlt Hb).
Qed.

Lemma Qltb_ge (x y : Q) : Qltb x y = false <-> (y <= x)%Q.
Proof.
  unfold Qltb. rewrite negb_false_iff. apply Qle_bool_iff.
Qed.

Lemma Qgtb_gt (x y : Q) : Qgtb x y = true <-> (y < x)%Q.
Proof. apply Qltb_lt. Qed.

Lemma Qgtb_le (x y : Q) : Qgtb x y = false <-> (x <= y)%Q.
Proof. apply Qltb_ge. Qed.

Lemma Qgeb_ge (x y : Q) : Qgeb x y = true <-> (y <= x)%Q.
Proof. apply Qle_bool_iff. Qed.

Lemma rbind_Ok {A B : Type} (m : result A) (k : A -> result B) (b : B) :
  rbind m k = Ok b <-> exists a, m = Ok a /\ k a = Ok b.
Proof.
  destruct m as [a|x]; simpl.
  - split; [eauto | intros (a' & Ha & Hk); congruence].
  - split; [discriminate | intros (a' & Ha & _); discriminate].
Qed.

(** Take apart a hypothesis [rbind m k = Ok b]. *)
Ltac inv_bind H :=
  let a := fresh "a" in
  let Ha := fresh "Ha" in
  apply rbind_Ok in H; destruct H as (a & Ha & H).

Lemma positive_or_inf_nonpositive (o : gmap string value) (k : string)
    (v : value) (q : Q) :
  o !! k = Some v -> as_num v = Ok q -> (q <= 0)%Q ->
  positive_or_inf o k = Ok PInf.
Proof.
  intros Hk Hv Hq. unfold positive_or_inf, opt_index. rewrite Hk. simpl.
  rewrite Hv. simpl. apply Qgtb_le in Hq. now rewrite Hq.
Qed.

Lemma positive_or_inf_positive (o : gmap string value) (k : string)
    (v : value) (q : Q) :
  o !! k = Some v -> as_num v = Ok q -> (0 < q)%Q ->
  positive_or_inf o k = Ok (Fin q).
Proof.
  intros Hk Hv Hq. unfold positive_or_inf, opt_index. rewrite Hk. simpl.
  rewrite Hv. simpl. apply Qgtb_gt in Hq. now rewrite Hq.
Qed.

(** ** Construction: the option dictionary on the way through [__init__] *)

Lemma init_trainstats_suffix_lookup (o o' : gmap string value)
    (fs : filesystem) (sfx k : string) :
  init_trainstats_suffix o fs = Ok (o', sfx) ->
  k <> "init_model"%string -> o' !! k = o !! k.
Proof.
  unfold init_trainstats_suffix. intros H Hk. inv_bind H.
  destruct (truthy a && truthy (opt_get o "model_file")).
  - inv_bind H. destruct (isfile fs _).
    + injection H as <- <-. now rewrite lookup_insert_ne.
    + now injection H as <- <-.
  - now injection H as <- <-.
Qed.

Lemma init_validation_metric_mode_lookup (o o' : gmap string value) (k : string) :
  init_validation_metric_mode o = Ok o' ->
  k <> "validation_metric_mode"%string -> o' !! k = o !! k.
Proof.
  unfold init_validation_metric_mode. intros H Hk. inv_bind H.
  injection H as <-.
  repeat match goal with
         | |- context [if ?b then _ else _] => destruct b
         | |- context [match ?v with VNone => _ | _ => _ end] => destruct v
         end;
    repeat rewrite lookup_insert_ne by congruence; reflexivity.
Qed.

(** The mode after lines 384-390, by the metric found in the options. *)
Lemma init_validation_metric_mode_spec (o o' : gmap string value) (metric : value) :
  o !! "validation_metric" = Some metric ->
  init_validation_metric_mode o = Ok o' ->
  (is_str_in metric ["loss"; "ppl"; "mean_rank"] = true ->
   o' !! "validation_metric_mode" = Some (VStr "min")) /\
  (is_str_in metric ["loss"; "ppl"; "mean_rank"] = false ->
   is_str_in metric ["accuracy"; "hits@1"; "hits@5"; "f1"; "bleu"] = true ->
   o' !! "validation_metric_mode" = Some (VStr "max")) /\
  (is_str_in metric ["loss"; "ppl"; "mean_rank"] = false ->
   is_str_in metric ["accuracy"; "hits@1"; "hits@5"; "f1"; "bleu"] = false ->
   opt_get o "validation_metric_mode" = VNone ->
   o' !! "validation_metric_mode" = Some (VStr "max")).
Proof.
  intros Hm H. unfold init_validation_metric_mode, opt_index in H.
  rewrite Hm in H. simpl in H. injection H as <-.
  split; [|split].
  - intros ->. unfold opt_get. rewrite lookup_insert_eq. simpl.
    apply lookup_insert_eq.
  - intros -> ->. unfold opt_get. rewrite lookup_insert_eq. simpl.
    apply lookup_insert_eq.
  - intros -> -> ->. apply lookup_insert_eq.
Qed.

(** What a successful construction has computed. *)
Lemma TrainLoop_init_inv (opt0 : gmap string value) (fs : filesystem)
    (self : TrainLoop) :
  TrainLoop_init opt0 fs = Ok self ->
  exists opt1 sfx stats,
    init_trainstats_suffix opt0 fs = Ok (opt1, sfx) /\
    positive_or_inf opt1 "num_epochs" = Ok (max_num_epochs self) /\
    positive_or_inf opt1 "max_train_time" = Ok (max_train_time self) /\
    positive_or_inf opt1 "log_every_n_secs" = Ok (log_every_n_secs self) /\
    positive_or_inf opt1 "validation_every_n_secs" = Ok (val_every_n_secs self) /\
    positive_or_inf opt1 "save_every_n_secs" = Ok (save_every_n_secs self) /\
    positive_or_inf opt1 "validation_every_n_epochs"
      = Ok (val_every_n_epochs self) /\
    init_validation_metric_mode opt1 = Ok (opt self) /\
    init_valid_optim (opt self) = Ok (valid_optim self) /\
    init_best_valid (opt self) fs = Ok (best_valid self) /\
    init_trainstats (opt self) fs sfx = Ok stats /\
    valid_reports self = from_option ts_valid_reports [] stats /\
    impatience self = from_option ts_impatience 0 stats /\
    _preempted_epochs self = from_option ts_total_epochs 0%Q stats /\
    train_time_total self = from_option ts_train_time 0%Q stats.
Proof.
  unfold TrainLoop_init. intros H.
  inv_bind H. destruct a as [opt1 sfx].
  do 12 inv_bind H.
  injection H as <-. simpl.
  eexists opt1, sfx, _. repeat split; first [eassumption | reflexivity].
Qed.

(** ** C9: the optimization direction follows the metric name *)

(** C9.  Construction forces the validation mode from the metric name,
    whatever mode the options carried: ['min'] for loss, ppl and mean_rank,
    ['max'] for accuracy, hits@1, hits@5, f1 and bleu, and ['max'] for any
    other metric when no mode was given; [valid_optim] is the matching
    sign. *)
Theorem init_forces_validation_metric_mode (opt0 : gmap string value)
    (fs : filesystem) (self : TrainLoop) (metric : value) :
  opt0 !! "validation_metric" = Some metric ->
  TrainLoop_init opt0 fs = Ok self ->
  (is_str_in metric ["loss"; "ppl"; "mean_rank"] = true ->
   opt self !! "validation_metric_mode" = Some (VStr "min")
   /\ valid_optim self = -1) /\
  (is_str_in metric ["accuracy"; "hits@1"; "hits@5"; "f1"; "bleu"] = true ->
   opt self !! "validation_metric_mode" = Some (VStr "max")
   /\ valid_optim self = 1) /\
  (is_str_in metric ["loss"; "ppl"; "mean_rank"] = false ->
   is_str_in metric ["accuracy"; "hits@1"; "hits@5"; "f1"; "bleu"] = false ->
   opt_get opt0 "validation_metric_mode" = VNone ->
   opt self !! "validation_metric_mode" = Some (VStr "max")
   /\ valid_optim self = 1).
Proof.
  intros Hm Hinit.
  destruct (TrainLoop_init_inv _ _ _ Hinit)
    as (opt1 & sfx & stats & Hsfx & _ & _ & _ & _ & _ & _ & Hmode & Hoptim & _).
  assert (Hm1 : opt1 !! "validation_metric" = Some metric).
  { rewrite (init_trainstats_suffix_lookup _ _ _ _ _ Hsfx); [exact Hm|discriminate]. }
  assert (Hmode0 : opt_get opt1 "validation_metric_mode"
                   = opt_get opt0 "validation_metric_mode").
  { unfold opt_get.
    rewrite (init_trainstats_suffix_lookup _ _ _ _ _ Hsfx); [reflexivity|discriminate]. }
  destruct (init_validation_metric_mode_spec _ _ _ Hm1 Hmode) as (Hmin & Hmax & Hdef).
  assert (Hsign : forall s, opt self !! "validation_metric_mode" = Some (VStr s) ->
                            valid_optim self = if String.eqb s "max" then 1 else -1).
  { intros s Hs. unfold init_valid_optim, opt_index in Hoptim.
    rewrite Hs in Hoptim. simpl in Hoptim. congruence. }
  split; [|split].
  - intros H1. split; [auto|]. rewrite (Hsign _ (Hmin H1)). reflexivity.
  - intros H2. destruct (is_str_in metric ["loss"; "ppl"; "mean_rank"]) eqn:H1.
    + exfalso. destruct metric as [| |q|s]; simpl in H1, H2; try discriminate.
      apply bool_decide_eq_true in H1. apply list_elem_of_In in H1.
      simpl in H1. destruct H1 as [<-|[<-|[<-|[]]]]; vm_compute in H2; discriminate.
    + split; [auto|]. rewrite (Hsign _ (Hmax eq_refl H2)). reflexivity.
  - intros H1 H2 H3. rewrite <- Hmode0 in H3.
    split; [auto|]. rewrite (Hsign _ (Hdef H1 H2 H3)). reflexivity.
Qed.

Lemma init_forces_validation_metric_mode_witness :
  exists self,
    TrainLoop_init loss_opt empty_fs = Ok self
    /\ opt self !! "validation_metric_mode" = Some (VStr "min")
    /\ valid_optim self = -1.
Proof.
  destruct (TrainLoop_init loss_opt empty_fs) as [self|x] eqn:E.
  - exists self. split; [reflexivity|].
    apply (init_forces_validation_metric_mode loss_opt empty_fs self (VStr "loss"));
      [vm_compute; reflexivity | exact E | vm_compute; reflexivity].
  - vm_compute in E. discriminate E.
Defined.

(** ** C10: options that are not positive switch their trigger off *)

Lemma init_threshold_lookup (opt0 opt1 : gmap string value) (fs : filesystem)
    (sfx k : string) (v : value) (q : Q) (x : ext) :
  init_trainstats_suffix opt0 fs = Ok (opt1, sfx) ->
  k <> "init_model"%string ->
  opt0 !! k = Some v -> as_num v = Ok q -> (q <= 0)%Q ->
  positive_or_inf opt1 k = Ok x -> x = PInf.
Proof.
  intros Hsfx Hk Hv Hq Hle Hx.
  rewrite <- (init_trainstats_suffix_lookup _ _ _ _ _ Hsfx Hk) in Hv.
  rewrite (positive_or_inf_nonpositive _ _ _ _ Hv Hq Hle) in Hx. congruence.
Qed.

(** C10.  When one of num_epochs, max_train_time, log_every_n_secs,
    validation_every_n_secs, save_every_n_secs, validation_every_n_epochs
    is at most 0, construction sets its threshold to infinity, and in every
    later state with that threshold the trigger it guards is false whatever
    the counters and the timers read: no epoch stop, no time stop, no
    periodic log, no checkpoint, and validation is due only through the
    other of its two thresholds. *)
Theorem nonpositive_options_disable_triggers (opt0 : gmap string value)
    (fs : filesystem) (self : TrainLoop) (k : string) (v : value) (q : Q) :
  TrainLoop_init opt0 fs = Ok self ->
  opt0 !! k = Some v -> as_num v = Ok q -> (q <= 0)%Q ->
  (k = "num_epochs"%string ->
   max_num_epochs self = PInf /\
   forall s, max_num_epochs s = max_num_epochs self -> epochs_exhausted s = false) /\
  (k = "max_train_time"%string ->
   max_train_time self = PInf /\
   forall s t, max_train_time s = max_train_time self ->
               time_exhausted s t = false) /\
  (k = "log_every_n_secs"%string ->
   log_every_n_secs self = PInf /\
   forall s t, log_every_n_secs s = log_every_n_secs self -> log_due s t = false) /\
  (k = "validation_every_n_secs"%string ->
   val_every_n_secs self = PInf /\
   forall s t, val_every_n_secs s = val_every_n_secs self ->
               validation_due s t
               = ge_ext (_total_epochs s - last_valid_epoch s)%Q
                   (val_every_n_epochs s)) /\
  (k = "save_every_n_secs"%string ->
   save_every_n_secs self = PInf /\
   forall s e t, save_every_n_secs s = save_every_n_secs self ->
                 checkpoint_due s e t = false) /\
  (k = "validation_every_n_epochs"%string ->
   val_every_n_epochs self = PInf /\
   forall s t, val_every_n_epochs s = val_every_n_epochs self ->
               validation_due s t
               = gt_ext (t_validate_time t) (val_every_n_secs s)).
Proof.
  intros Hinit Hv Hq Hle.
  destruct (TrainLoop_init_inv _ _ _ Hinit)
    as (opt1 & sfx & stats & Hsfx & He & Ht & Hl & Hvs & Hs & Hve & _).
  assert (Hinf : forall x, k <> "init_model"%string ->
                           positive_or_inf opt1 k = Ok x -> x = PInf).
  { intros x Hk Hx. exact (init_threshold_lookup _ _ _ _ _ _ _ _ Hsfx Hk Hv Hq Hle Hx). }
  repeat match goal with |- _ /\ _ => split end; intros ->.
  - rewrite (Hinf _ ltac:(discriminate) He). split; [reflexivity|].
    intros s Hs'. unfold epochs_exhausted. rewrite Hs'. reflexivity.
  - rewrite (Hinf _ ltac:(discriminate) Ht). split; [reflexivity|].
    intros s t Hs'. unfold time_exhausted. rewrite Hs'. reflexivity.
  - rewrite (Hinf _ ltac:(discriminate) Hl). split; [reflexivity|].
    intros s t Hs'. unfold log_due. rewrite Hs'. reflexivity.
  - rewrite (Hinf _ ltac:(discriminate) Hvs). split; [reflexivity|].
    intros s t Hs'. unfold validation_due. rewrite Hs'. reflexivity.
  - rewrite (Hinf _ ltac:(discriminate) Hs). split; [reflexivity|].
    intros s e t Hs'. unfold checkpoint_due. rewrite Hs'. reflexivity.
  - rewrite (Hinf _ ltac:(discriminate) Hve). split; [reflexivity|].
    intros s t Hs'. unfold validation_due. rewrite Hs'. simpl.
    apply orb_false_r.
Qed.

Lemma nonpositive_options_disable_triggers_witness :
  exists self,
    TrainLoop_init example_opt empty_fs = Ok self
    /\ max_num_epochs self = PInf
    /\ forall s, max_num_epochs s = max_num_epochs self ->
                 epochs_exhausted s = false.
Proof.
  destruct (TrainLoop_init example_opt empty_fs) as [self|x] eqn:E.
  - exists self. split; [reflexivity|].
    apply (nonpositive_options_disable_triggers example_opt empty_fs self
             "num_epochs" (VNum (-1)) (-1)%Q);
      [exact E | vm_compute; reflexivity | reflexivity
      | vm_compute; discriminate | reflexivity].
  - vm_compute in E. discriminate E.
Defined.

(** ** C4: the order of the stopping checks *)

Lemma ge_ext_true (x : Q) (t : ext) :
  ge_ext x t = true <-> exists q, t = Fin q /\ (q <= x)%Q.
Proof.
  destruct t as [q|]; simpl.
  - rewrite Qgeb_ge. split; [eauto|]. intros (q' & [= <-] & Hq). exact Hq.
  - split; [discriminate|]. intros (q' & Hq & _). discriminate.
Qed.

Lemma gt_ext_true (x : Q) (t : ext) :
  gt_ext x t = true <-> exists q, t = Fin q /\ (q < x)%Q.
Proof.
  destruct t as [q|]; simpl.
  - rewrite Qgtb_gt. split; [eauto|]. intros (q' & [= <-] & Hq). exact Hq.
  - split; [discriminate|]. intros (q' & Hq & _). discriminate.
Qed.

Section Stopping.
Context {W : Type} `{World W} `{Metrics}.

(** C4.  After a training step the epoch check comes first: when
    [total_epochs >= max_epochs] the iteration logs once and stops,
    whatever the timers read; otherwise, when the broadcast train time
    exceeds [max_train_time], it stops with no log entry.  Neither case
    validates or saves. *)
Theorem stopping_checks_in_order (fuel : nat) (self : TrainLoop) (e : env)
    (t : timings) (valid_worlds : list W) (fs : filesystem) :
  (forall max_epochs,
      max_num_epochs self = Fin max_epochs ->
      (max_epochs <= _total_epochs (progressed self e))%Q ->
      train_iteration fuel self e t (Ok tt) valid_worlds fs
      = Some (Ok (mk_iteration W (progressed self e) valid_worlds fs
                    [ActLog; ActPrintNumEpochsCompleted] Break))) /\
  (forall max_time,
      max_train_time self = Fin max_time ->
      (max_time < t_train_time t)%Q ->
      epochs_exhausted (progressed self e) = false ->
      train_iteration fuel self e t (Ok tt) valid_worlds fs
      = Some (Ok (mk_iteration W (progressed self e) valid_worlds fs
                    [ActPrintMaxTrainTimeElapsed] Break))).
Proof.
  split.
  - intros max_epochs Hmax Hle.
    assert (Hx : epochs_exhausted (progressed self e) = true).
    { unfold epochs_exhausted. apply ge_ext_true. exists max_epochs.
      split; [exact Hmax | exact Hle]. }
    unfold train_iteration. now rewrite Hx.
  - intros max_time Hmax Hlt Hx.
    assert (Ht : time_exhausted (progressed self e) t = true).
    { unfold time_exhausted. apply gt_ext_true. exists max_time.
      split; [exact Hmax | exact Hlt]. }
    unfold train_iteration. now rewrite Hx, Ht.
Qed.
End Stopping.

Example one_epoch_loop_built :
  TrainLoop_init one_epoch_opt empty_fs = Ok one_epoch_loop.
Proof. vm_compute. reflexivity. Qed.

Lemma stopping_checks_in_order_witness :
  @train_iteration counter_world _ plain_metrics 0 one_epoch_loop
    (single_worker 1 100) (mk_timings 100 100 100 100) (Ok tt) [] empty_fs
  = Some (Ok (mk_iteration counter_world
                (progressed one_epoch_loop (single_worker 1 100)) [] empty_fs
                [ActLog; ActPrintNumEpochsCompleted] Break))
  /\ @train_iteration counter_world _ plain_metrics 0 one_epoch_loop
       (single_worker (1 # 2) 100) (mk_timings 100 0 0 0) (Ok tt) [] empty_fs
     = Some (Ok (mk_iteration counter_world
                   (progressed one_epoch_loop (single_worker (1 # 2) 100)) []
                   empty_fs [ActPrintMaxTrainTimeElapsed] Break)).
Proof.
  split.
  - apply (proj1 (@stopping_checks_in_order counter_world _ plain_metrics 0
                    one_epoch_loop (single_worker 1 100)
                    (mk_timings 100 100 100 100) [] empty_fs) 1%Q);
      [reflexivity | vm_compute; discriminate].
  - apply (proj2 (@stopping_checks_in_order counter_world _ plain_metrics 0
                    one_epoch_loop (single_worker (1 # 2) 100)
                    (mk_timings 100 0 0 0) [] empty_fs) 60%Q);
      [reflexivity | vm_compute; reflexivity | vm_compute; reflexivity].
Defined.

(** ** C2: the per-worker share of [validation_max_exs] *)

Example capped_validation_loop_built :
  TrainLoop_init (<["validation_max_exs" := VNum 10]> example_opt) empty_fs
  = Ok capped_validation_loop.
Proof. vm_compute. reflexivity. Qed.

(** The local [max_exs] of [validate] gives the extra example to the ranks
    above the remainder, not to those below it. *)
Lemma validate_max_exs_spec (m : Z) (e : env) :
  validate_max_exs m e
  = m / num_workers e + (if m mod num_workers e <? get_rank e then 1 else 0).
Proof. unfold validate_max_exs. now destruct (_ <? _). Qed.

(** [validate] hands [opt['validation_max_exs']] to [run_eval]: the pass of
    a worker does not depend on its rank or on the number of workers. *)
Lemma validate_eval_ignores_sharding {W : Type} `{World W} `{Metrics}
    (fuel : nat) (self : TrainLoop) (e : env) (n rank : Z)
    (valid_worlds : list W) (fs : filesystem) :
  validate_eval fuel self
    (mk_env n rank (is_primary_worker e) (is_distributed e)
       (world_total_epochs e) (train_time_now e))
    valid_worlds fs
  = validate_eval fuel self e valid_worlds fs.
Proof. reflexivity. Qed.

(** C2, on the code.  With 4 workers and [validation_max_exs = 10] the
    local [max_exs] of ranks 0, 1, 2, 3 is 2, 2, 2, 3 (not 3, 3, 2, 2), and
    the pass that rank 0 runs over a source of 100 examples with batches of
    1 takes 10 batch-steps: it is capped by [validation_max_exs] itself. *)
Theorem validate_shards_four_workers :
  (fun rank => validate_max_exs 10 (worker 4 rank)) <$> [0; 1; 2; 3]
  = [2; 2; 2; 3]
  /\ exists w r,
      @validate_eval counter_world _ plain_metrics 20 capped_validation_loop
        (worker 4 0) [mk_counter_world 100 1 0 0] empty_fs
      = Some (Ok ([w], r))
      /\ cw_parleys w = 10.
Proof.
  split; [reflexivity|].
  eexists _, _. split; [vm_compute; reflexivity | reflexivity].
Qed.

(** ** C3: the estimated time left *)

Example two_epochs_loop_built :
  TrainLoop_init (<["num_epochs" := VNum 2]>
                    (<["max_train_time" := VNum 5]> example_opt)) empty_fs
  = Ok two_epochs_loop.
Proof. vm_compute. reflexivity. Qed.

Example timed_loop_built :
  TrainLoop_init (<["max_train_time" := VNum 100]> example_opt) empty_fs
  = Ok timed_loop.
Proof. vm_compute. reflexivity. Qed.

(** The options that [setup_args] declares have no key
    [max_training_time]: the time budget is [max_train_time]. *)
Example setup_args_has_no_max_training_time :
  setup_args_defaults !! "max_training_time" = None
  /\ setup_args_defaults !! "max_train_time" = Some (VNum (-1)).
Proof. split; vm_compute; reflexivity. Qed.



(** C3, on the code.  With a time budget of 100 s and no epoch budget,
    after 1 epoch and 10 s, [_compute_eta] reports nothing (not 90); with
    an epoch budget of 2 and a time budget of 5 s, after 1 epoch and 10 s,
    it reports the epoch extrapolation 10 (not the smaller 5 - 10). *)
Theorem _compute_eta_ignores_max_train_time :
  _compute_eta timed_loop 1 10 = Ok None
  /\ exists eta, _compute_eta two_epochs_loop 1 10 = Ok (Some eta)
                 /\ (eta == 10)%Q.
Proof.
  split; [vm_compute; reflexivity|].
  eexists. split; [vm_compute; reflexivity | reflexivity].
Qed.

(** ** C5: the evaluation log *)

Section EvalLog.
Context {W : Type} `{World W} `{Metrics}.

(** C5, as the code has it.  When [write_log] is set and a model file is
    configured, [run_eval] appends the summary line to the log named by
    the datatype with no handler around it: if the log cannot be opened
    the [OSError] reaches the caller and no report is returned; if it can,
    the report is returned and the line is the last of the log. *)
Theorem run_eval_write_log (fuel : nat) (worlds worlds' : list W)
    (reports : list report) (o : gmap string value) (datatype mf : string)
    (max_exs : Q) (fs : filesystem) :
  run_eval_worlds fuel o worlds
    (max_exs / inject_Z (Z.of_nat (length worlds)))%Q
  = Some (Ok (worlds', reports)) ->
  opt_get o "model_file" = VStr mf -> mf <> ""%string ->
  let report :=
    nice_report (aggregate_named_reports (dict_zip (getID <$> worlds') reports)) in
  let path := (mf +:+ "." +:+ datatype)%string in
  let line := (datatype +:+ ":" +:+ format_report report)%string in
  (path ∈ denied fs ->
   run_eval fuel (Some worlds) o datatype max_exs true fs = Some (Raise OSError))
  /\ (path ∉ denied fs ->
      exists fs',
        run_eval fuel (Some worlds) o datatype max_exs true fs
        = Some (Ok (Some worlds', Some report, fs'))
        /\ append_line fs path line = Ok fs'
        /\ exists old, files fs' !! path = Some (FLog (old ++ [line]))).
Proof.
  intros Hrun Hmf Hne report path line.
  assert (Htruthy : truthy (VStr mf) = true).
  { simpl. destruct (String.eqb_spec mf ""); [contradiction | reflexivity]. }
  unfold run_eval. rewrite Hrun, Hmf, Htruthy. simpl.
  fold report. fold line. fold path.
  unfold append_line. split; intros Hp.
  - now rewrite bool_decide_eq_true_2.
  - rewrite bool_decide_eq_false_2 by exact Hp. simpl.
    eexists. split; [reflexivity|]. split; [reflexivity|].
    eexists. simpl. apply lookup_insert_eq.
Qed.
End EvalLog.

Lemma run_eval_write_log_witness :
  @run_eval counter_world _ plain_metrics 20 (Some [mk_counter_world 3 1 0 0])
    example_opt "valid" (-1) true unwritable_log_fs
  = Some (Raise OSError).
Proof.
  apply (@run_eval_write_log counter_world _ plain_metrics 20
           [mk_counter_world 3 1 0 0] [mk_counter_world 3 1 0 3]
           [ {[ "exs"%string := Raw 3 ]} ] example_opt "valid" "/tmp/model"
           (-1) unwritable_log_fs).
  - vm_compute. reflexivity.
  - vm_compute. reflexivity.
  - discriminate.
  - vm_compute. reflexivity.
Defined.

(** C5, as stated, fails: a validation pass over a source of three
    examples, with [write_log] set and [/tmp/model] as the model file, on a
    disk where [/tmp/model.valid] cannot be opened, raises [OSError];
    nothing is returned to the caller. *)
Lemma run_eval_log_failure_is_fatal :
  ~ exists r,
      @run_eval counter_world _ plain_metrics 20 (Some [mk_counter_world 3 1 0 0])
        example_opt "valid" (-1) true unwritable_log_fs
      = Some (Ok r).
Proof.
  intros (r & Hr). vm_compute in Hr. discriminate Hr.
Qed.

(** ** C6: interrupts during a save *)

Lemma write_file_not_interrupt (fs : filesystem) (path : string) (c : file) :
  write_file fs path c <> Raise KeyboardInterrupt.
Proof. unfold write_file. now destruct (bool_decide _). Qed.

Lemma save_path_not_interrupt (self : TrainLoop) (suffix : option string) :
  save_path self suffix <> Raise KeyboardInterrupt.
Proof.
  unfold save_path, opt_index.
  destruct (opt self !! "model_file") as [[| | |s]|]; simpl; discriminate.
Qed.

(** With no signal, an attempt does not raise [KeyboardInterrupt]. *)
Lemma save_attempt_quiet (self : TrainLoop) (e : env) (suffix : option string)
    (fn : string) (fs : filesystem) :
  (save_attempt self e suffix fn NoSignal fs).2 <> Raise KeyboardInterrupt.
Proof.
  unfold save_attempt, agent_save, _save_train_stats.
  destruct (write_file fs fn FModel) as [fs1|x] eqn:E1; simpl.
  - destruct (save_path self suffix) as [p|x] eqn:Ep; simpl.
    + destruct (write_file fs1 _ _) as [fs2|x] eqn:E2; simpl; [discriminate|].
      intros [= ->]. exact (write_file_not_interrupt _ _ _ E2).
    + intros [= ->]. exact (save_path_not_interrupt _ _ Ep).
  - intros [= ->]. exact (write_file_not_interrupt _ _ _ E1).
Qed.

Lemma save_model_loop_not_interrupt (self : TrainLoop) (e : env)
    (suffix : option string) (fn : string) (signals : list interruption)
    (fs : filesystem) :
  (save_model_loop self e suffix fn signals fs).2 <> Raise KeyboardInterrupt.
Proof.
  revert fs. induction signals as [|i rest IH]; intros fs; simpl.
  - apply save_attempt_quiet.
  - destruct (save_attempt self e suffix fn i fs) as [fs' [u|x]] eqn:E;
      [simpl; discriminate|].
    destruct x; simpl; try discriminate. apply IH.
Qed.

(** Writing the snapshot twice is writing it once. *)
Lemma agent_save_twice (fn : string) (fs fs1 : filesystem) :
  agent_save fn fs = Ok fs1 -> agent_save fn fs1 = Ok fs1.
Proof.
  unfold agent_save, write_file. destruct fs as [fl dn]. simpl.
  destruct (bool_decide (fn ∈ dn)) eqn:Hd; [discriminate|].
  intros [= <-]. simpl. rewrite Hd. now rewrite insert_insert_eq.
Qed.

(** Attempts cut short by interrupts do not show in the outcome: the loop
    ends as the attempt with no signal does. *)
Lemma save_model_loop_interrupted (self : TrainLoop) (e : env)
    (suffix : option string) (fn : string) (signals : list interruption) :
  Forall interrupted signals ->
  forall fs,
    save_model_loop self e suffix fn signals fs
    = save_attempt self e suffix fn NoSignal fs.
Proof.
  induction 1 as [|i rest Hi _ IH]; intros fs; [reflexivity|].
  destruct Hi; simpl.
  - apply IH.
  - destruct (agent_save fn fs) as [fs1|x] eqn:E1.
    + rewrite IH. simpl. now rewrite (agent_save_twice _ _ _ E1).
    + unfold agent_save, write_file in E1.
      destruct (bool_decide _); [|discriminate]. now injection E1 as <-.
Qed.

Lemma append_nonempty_neq (s t : string) : t <> ""%string -> s <> (s +:+ t)%string.
Proof.
  intros Ht. induction s as [|c s IH]; simpl.
  - intros Heq. apply Ht. now symmetry.
  - intros [= Hs]. exact (IH Hs).
Qed.

(** C6.  On the primary worker with a model file configured, [save_model]
    never ends by raising [KeyboardInterrupt]; when interrupts cut short any
    number of attempts, in either of the two writes, the call ends exactly as
    the save with no interrupt does; and when the two paths can be written
    it returns normally with the snapshot and the stats file in place. *)
Theorem save_model_shields_interrupts (self : TrainLoop) (e : env)
    (suffix : option string) (signals : list interruption) (fs : filesystem) :
  is_primary_worker e = true ->
  truthy (opt_get (opt self) "model_file") = true ->
  (save_model self e suffix signals fs).2 <> Raise KeyboardInterrupt
  /\ (Forall interrupted signals ->
      save_model self e suffix signals fs = save_model self e suffix [] fs)
  /\ (Forall interrupted signals ->
      forall fn,
        save_path self suffix = Ok fn ->
        fn ∉ denied fs -> (fn +:+ ".trainstats")%string ∉ denied fs ->
        exists fs',
          save_model self e suffix signals fs = (fs', Ok tt)
          /\ files fs' !! fn = Some FModel
          /\ files fs' !! (fn +:+ ".trainstats")%string
             = Some (FJson (trainstats_json self e))).
Proof.
  intros Hp Hmf. unfold save_model. rewrite Hp, Hmf. simpl.
  split; [|split].
  - destruct (save_path self suffix) as [fn|x] eqn:Ep; simpl.
    + apply save_model_loop_not_interrupt.
    + intros [= ->]. exact (save_path_not_interrupt _ _ Ep).
  - intros Hs. destruct (save_path self suffix) as [fn|x]; [|reflexivity].
    now rewrite save_model_loop_interrupted.
  - intros Hs fn Hfn Hd1 Hd2. rewrite Hfn.
    rewrite save_model_loop_interrupted by exact Hs.
    unfold save_attempt, agent_save, _save_train_stats, write_file.
    rewrite Hfn. simpl.
    rewrite (bool_decide_eq_false_2 _ Hd1). simpl.
    rewrite (bool_decide_eq_false_2 _ Hd2). simpl.
    eexists. split; [reflexivity|]. simpl. split.
    + rewrite lookup_insert_ne; [apply lookup_insert_eq|].
      intros Heq. symmetry in Heq. revert Heq.
      apply append_nonempty_neq. discriminate.
    + apply lookup_insert_eq.
Qed.

Lemma save_model_shields_interrupts_witness :
  (save_model one_epoch_loop (single_worker 1 100) (Some ".checkpoint"%string)
     [DuringAgentSave KeyboardInterrupt; DuringSaveTrainStats KeyboardInterrupt]
     empty_fs).2
  <> Raise KeyboardInterrupt.
Proof.
  apply (save_model_shields_interrupts one_epoch_loop (single_worker 1 100)
           (Some ".checkpoint"%string)
           [DuringAgentSave KeyboardInterrupt;
            DuringSaveTrainStats KeyboardInterrupt] empty_fs);
    vm_compute; reflexivity.
Defined.

Example save_model_interrupted_twice :
  exists fs',
    save_model one_epoch_loop (single_worker 1 100) (Some ".checkpoint"%string)
      [DuringAgentSave KeyboardInterrupt; DuringSaveTrainStats KeyboardInterrupt]
      empty_fs = (fs', Ok tt)
    /\ files fs' !! "/tmp/model.checkpoint" = Some FModel
    /\ files fs' !! "/tmp/model.checkpoint.trainstats"
       = Some (FJson (trainstats_json one_epoch_loop (single_worker 1 100))).
Proof.
  eexists. split; [vm_compute; reflexivity|]. split; vm_compute; reflexivity.
Qed.

(** An exception other than an interrupt is not retried. *)
Example save_model_other_exception :
  save_model one_epoch_loop (single_worker 1 100) None
    [DuringAgentSave OSError] empty_fs = (empty_fs, Raise OSError).
Proof. reflexivity. Qed.

(** ** C8: the stats file read back *)

Lemma json_report_fields_encoded (l : list (string * Q)) :
  json_report_fields (prod_map id JFloat <$> l) = Ok l.
Proof.
  induction l as [|[k q] l IH]; [reflexivity|].
  rewrite fmap_cons.
  cbn [json_report_fields prod_map fst snd json_float rbind id].
  rewrite IH. reflexivity.
Qed.

Lemma json_report_encoded (r : values_report) :
  json_report (json_of_report r) = Ok r.
Proof.
  unfold json_report, json_of_report. rewrite json_report_fields_encoded.
  cbn [rbind]. now rewrite list_to_map_to_list.
Qed.

Lemma json_reports_list_encoded (rs : list values_report) :
  json_reports_list (json_of_report <$> rs) = Ok rs.
Proof.
  induction rs as [|r rs IH]; [reflexivity|].
  rewrite fmap_cons. cbn [json_reports_list].
  rewrite json_report_encoded. cbn [rbind]. rewrite IH. reflexivity.
Qed.

Lemma json_reports_encoded (rs : list values_report) :
  json_reports (JArr (json_of_report <$> rs)) = Ok rs.
Proof. apply json_reports_list_encoded. Qed.

Lemma load_trainstats_saved (self : TrainLoop) (e : env) :
  exists obj, trainstats_json self e = JObj obj
              /\ load_trainstats obj = Ok (saved_trainstats self e).
Proof.
  eexists. split; [reflexivity|].
  unfold load_trainstats.
  cbn [json_get String.eqb Ascii.eqb Bool.eqb default from_option id
       json_float json_int rbind].
  rewrite json_reports_encoded. reflexivity.
Qed.

Lemma string_append_assoc (a b c : string) :
  ((a +:+ b) +:+ c = a +:+ (b +:+ c))%string.
Proof.
  induction a as [|x a IH]; [reflexivity|].
  change (String x ((a +:+ b) +:+ c) = String x (a +:+ (b +:+ c)))%string.
  now rewrite IH.
Qed.

Lemma truthy_nonempty (mf : string) : mf <> ""%string -> truthy (VStr mf) = true.
Proof.
  intros Hne. simpl. destruct (String.eqb_spec mf ""); [contradiction|reflexivity].
Qed.

(** Reading, with the suffix [sfx], the file that [_save_train_stats]
    wrote for [suffix]. *)
Lemma init_trainstats_saved (self : TrainLoop) (e : env) (suffix : option string)
    (fs fs' : filesystem) (mf sfx : string) (o : gmap string value) :
  opt self !! "model_file" = Some (VStr mf) -> mf <> ""%string ->
  _save_train_stats self e suffix fs = Ok fs' ->
  opt_get o "model_file" = VStr mf ->
  sfx = (from_option id "" suffix +:+ ".trainstats")%string ->
  init_trainstats o fs' sfx = Ok (Some (saved_trainstats self e)).
Proof.
  intros Hmf Hne Hsave Ho ->.
  unfold _save_train_stats, save_path, opt_index in Hsave.
  rewrite Hmf in Hsave. simpl in Hsave. unfold write_file in Hsave.
  destruct (bool_decide _); [discriminate|]. injection Hsave as <-.
  unfold init_trainstats. rewrite Ho, (truthy_nonempty _ Hne). simpl.
  assert (Hpath : (mf +:+ from_option id "" suffix +:+ ".trainstats")%string
                  = ((match suffix with Some s => mf +:+ s | None => mf end)
                     +:+ ".trainstats")%string).
  { destruct suffix as [s|]; simpl; [now rewrite string_append_assoc | reflexivity]. }
  rewrite Hpath, lookup_insert_eq.
  destruct (load_trainstats_saved self e) as (obj & -> & ->). reflexivity.
Qed.

(** C8.  A stats file written by [_save_train_stats] and read back by the
    constructor of a new loop for the same model file gives the four
    fields as they were saved: the elapsed train time, the total epochs,
    the impatience and the validation reports.  The new loop reads the
    plain stats file unless it loads from a checkpoint, and the
    checkpoint's stats when it does and the checkpoint is there. *)
Theorem trainstats_round_trip (self : TrainLoop) (e : env)
    (suffix : option string) (fs fs' : filesystem) (mf : string)
    (opt0 : gmap string value) (lfc : value) (loop' : TrainLoop) :
  opt self !! "model_file" = Some (VStr mf) -> mf <> ""%string ->
  _save_train_stats self e suffix fs = Ok fs' ->
  opt0 !! "model_file" = Some (VStr mf) ->
  opt0 !! "load_from_checkpoint" = Some lfc ->
  (suffix = None /\ truthy lfc = false)
  \/ (suffix = Some ".checkpoint"%string /\ truthy lfc = true
      /\ isfile fs' (mf +:+ ".checkpoint") = true) ->
  TrainLoop_init opt0 fs' = Ok loop' ->
  train_time_total loop' = train_time_now e
  /\ _preempted_epochs loop'
     = (_preempted_epochs self
        + inject_Z (num_workers e) * world_total_epochs e)%Q
  /\ impatience loop' = impatience self
  /\ valid_reports loop' = valid_reports self.
Proof.
  intros Hmf Hne Hsave Hmf0 Hlfc Hcase Hinit.
  destruct (TrainLoop_init_inv _ _ _ Hinit)
    as (opt1 & sfx & stats & Hsfx & _ & _ & _ & _ & _ & _ & Hmode & _ & _
        & Hstats & Hvr & Him & Hpe & Htt).
  assert (Hmf' : opt_get (opt loop') "model_file" = VStr mf).
  { unfold opt_get.
    rewrite (init_validation_metric_mode_lookup _ _ _ Hmode) by discriminate.
    rewrite (init_trainstats_suffix_lookup _ _ _ _ _ Hsfx) by discriminate.
    now rewrite Hmf0. }
  assert (Hsuffix : sfx = (from_option id "" suffix +:+ ".trainstats")%string).
  { unfold init_trainstats_suffix, opt_index, opt_get in Hsfx.
    rewrite Hlfc, Hmf0 in Hsfx. simpl in Hsfx.
    destruct Hcase as [[-> Hf] | (-> & Ht & Hfile)].
    - rewrite Hf in Hsfx. simpl in Hsfx. now injection Hsfx as _ <-.
    - rewrite Ht, Hfile in Hsfx. simpl in Hsfx.
      destruct (String.eqb_spec mf ""); [contradiction|].
      simpl in Hsfx. now injection Hsfx as _ <-. }
  rewrite (init_trainstats_saved _ _ _ _ _ _ _ _ Hmf Hne Hsave Hmf' Hsuffix)
    in Hstats.
  injection Hstats as <-. simpl in Hvr, Him, Hpe, Htt. auto.
Qed.

Example midrun_saved :
  _save_train_stats midrun_loop (single_worker (1 # 2) 42) None
    empty_fs = Ok midrun_saved_fs.
Proof. vm_compute. reflexivity. Qed.

Lemma trainstats_round_trip_witness :
  exists loop',
    TrainLoop_init one_epoch_opt midrun_saved_fs = Ok loop'
    /\ train_time_total loop' = 42%Q
    /\ _preempted_epochs loop' = ((1 # 4) + inject_Z 1 * (1 # 2))%Q
    /\ impatience loop' = 1
    /\ valid_reports loop' = valid_reports midrun_loop.
Proof.
  destruct (TrainLoop_init one_epoch_opt midrun_saved_fs) as [loop'|x] eqn:E.
  - exists loop'. split; [reflexivity|].
    apply (trainstats_round_trip midrun_loop
             (single_worker (1 # 2) 42) None empty_fs
             midrun_saved_fs "/tmp/model" one_epoch_opt (VBool false) loop');
      [ vm_compute; reflexivity | discriminate | vm_compute; reflexivity
      | vm_compute; reflexivity | vm_compute; reflexivity
      | left; split; reflexivity | exact E ].
  - vm_compute in E. discriminate E.
Defined.

(** ** C7: one evaluation pass *)

Section SingleEval.
Context {W : Type} `{World W}.

Lemma continues_pass_stops (max_exs : Q) (s : W * Z) :
  continues (max_cnt_of max_exs) s = false <-> pass_stops max_exs s.
Proof.
  unfold continues, pass_stops, max_cnt_of.
  rewrite andb_false_iff, negb_false_iff.
  destruct (Qgtb max_exs 0) eqn:Hpos; simpl.
  - apply Qgtb_gt in Hpos. rewrite Qltb_ge. tauto.
  - apply Qgtb_le in Hpos. split.
    + intros [Hd|Hf]; [now left | discriminate].
    + intros [Hd|[Hlt _]]; [now left|].
      exfalso. exact (Qlt_not_le _ _ Hlt Hpos).
Qed.

Lemma eval_loop_unfold (fuel : nat) (o : gmap string value) (max_cnt : ext)
    (s : W * Z) :
  eval_loop fuel o max_cnt s.1 s.2
  = if continues max_cnt s then
      match fuel with
      | O => None
      | S fuel' =>
          match (if s.2 =? 0 then opt_index o "display_examples" else Ok VNone) with
          | Raise x => Some (Raise x)
          | Ok _ => eval_loop fuel' o max_cnt (parley s.1)
                      (s.2 + batchsize (parley s.1))
          end
      end
    else Some (Ok s).
Proof. destruct s as [w cnt]. destruct fuel; reflexivity. Qed.

Lemma eval_state_S (n : nat) (w : W) :
  eval_state (S n) w
  = (parley (eval_state n w).1,
     (eval_state n w).2 + batchsize (parley (eval_state n w).1)).
Proof. simpl. now destruct (eval_state n w). Qed.

Lemma eval_loop_step (fuel : nat) (o : gmap string value) (max_cnt : ext)
    (w0 : W) (k : nat) :
  eval_loop fuel o max_cnt (eval_state k w0).1 (eval_state k w0).2
  = if continues max_cnt (eval_state k w0) then
      match fuel with
      | O => None
      | S fuel' =>
          match (if (eval_state k w0).2 =? 0
                 then opt_index o "display_examples" else Ok VNone) with
          | Raise x => Some (Raise x)
          | Ok _ => eval_loop fuel' o max_cnt (eval_state (S k) w0).1
                      (eval_state (S k) w0).2
          end
      end
    else Some (Ok (eval_state k w0)).
Proof. rewrite eval_loop_unfold, eval_state_S. reflexivity. Qed.

Lemma display_lookup_ok (o : gmap string value) (cnt : Z) :
  is_Some (o !! "display_examples") ->
  exists v, (if cnt =? 0 then opt_index o "display_examples" else Ok VNone) = Ok v.
Proof.
  intros [d Hd]. unfold opt_index. rewrite Hd. destruct (cnt =? 0); eauto.
Qed.

(** A pass that returns has stopped at the first state in which the loop
    test fails. *)
Lemma eval_loop_sound (o : gmap string value) (max_cnt : ext) (w0 : W)
    (fuel : nat) :
  forall (k : nat) (r : W * Z),
    eval_loop fuel o max_cnt (eval_state k w0).1 (eval_state k w0).2
    = Some (Ok r) ->
    exists n, (k <= n <= k + fuel)%nat /\ r = eval_state n w0
              /\ continues max_cnt (eval_state n w0) = false
              /\ forall m, (k <= m < n)%nat ->
                           continues max_cnt (eval_state m w0) = true.
Proof.
  induction fuel as [|fuel IH]; intros k r; rewrite eval_loop_step;
    destruct (continues max_cnt (eval_state k w0)) eqn:Hc;
    try discriminate.
  - intros [= <-]. exists k. repeat split; [lia | lia | exact Hc | lia].
  - destruct (if _ =? 0 then _ else _); [|discriminate].
    intros Hr.
    destruct (IH (S k) r Hr) as (n & Hn & -> & Hstop & Hbefore).
    exists n. repeat split; [lia | lia | exact Hstop |].
    intros m Hm. destruct (decide (m = k)) as [->|Hne]; [exact Hc|].
    apply Hbefore. lia.
  - intros [= <-]. exists k. repeat split; [lia | lia | exact Hc | lia].
Qed.

(** A pass returns once the fuel covers the first failing loop test. *)
Lemma eval_loop_total (o : gmap string value) (max_cnt : ext) (w0 : W) :
  is_Some (o !! "display_examples") ->
  forall (j k fuel : nat),
    continues max_cnt (eval_state (k + j) w0) = false ->
    (j <= fuel)%nat ->
    exists r, eval_loop fuel o max_cnt (eval_state k w0).1 (eval_state k w0).2
              = Some (Ok r).
Proof.
  intros Hd. induction j as [|j IH]; intros k fuel Hstop Hfuel;
    rewrite eval_loop_step.
  - rewrite Nat.add_0_r in Hstop. rewrite Hstop. eauto.
  - destruct (continues max_cnt (eval_state k w0)); [|eauto].
    destruct fuel as [|fuel]; [lia|].
    destruct (display_lookup_ok o (eval_state k w0).2 Hd) as [v ->].
    apply (IH (S k)); [|lia].
    now replace (S k + j)%nat with (k + S j)%nat by lia.
Qed.

(** C7.  A pass resets the source, takes batch-steps, and resets the
    source again after reading its report.  It stops at the first state in
    which the source has completed its pass or, for [max_exs > 0], the
    count of examples has reached [max_exs]; for [max_exs <= 0] the count
    never stops it.  Whenever such a state exists the pass returns. *)
Theorem _run_single_eval_stops (o : gmap string value) (w : W) (max_exs : Q) :
  is_Some (o !! "display_examples") ->
  ((max_exs <= 0)%Q ->
   forall s : W * Z, pass_stops max_exs s <-> epoch_done s.1 = true)
  /\ (forall fuel w' r,
         _run_single_eval fuel o w max_exs = Some (Ok (w', r)) ->
         exists n, (n <= fuel)%nat
                   /\ w' = reset (eval_state n (reset w)).1
                   /\ r = world_report (eval_state n (reset w)).1
                   /\ pass_stops max_exs (eval_state n (reset w))
                   /\ forall m, (m < n)%nat ->
                                ~ pass_stops max_exs (eval_state m (reset w)))
  /\ (forall n fuel,
         pass_stops max_exs (eval_state n (reset w)) -> (n <= fuel)%nat ->
         exists w' r, _run_single_eval fuel o w max_exs = Some (Ok (w', r))).
Proof.
  intros Hd. split; [|split].
  - intros Hle s. unfold pass_stops. split; [|now left].
    intros [Hdone|[Hlt _]]; [exact Hdone|].
    exfalso. exact (Qlt_not_le _ _ Hlt Hle).
  - intros fuel w' r. unfold _run_single_eval.
    destruct (eval_loop fuel o (max_cnt_of max_exs) (reset w) 0)
      as [[[w1 c1]|x]|] eqn:Hloop; try discriminate.
    intros [= <- <-].
    destruct (eval_loop_sound o (max_cnt_of max_exs) (reset w) fuel 0%nat
                (w1, c1) Hloop) as (n & Hn & Hr & Hstop & Hbefore).
    exists n. rewrite <- Hr. simpl. repeat split; [lia | |].
    + apply continues_pass_stops. now rewrite <- Hr in Hstop.
    + intros m Hm Hs. apply continues_pass_stops in Hs.
      rewrite Hbefore in Hs by lia. discriminate.
  - intros n fuel Hs Hfuel. apply continues_pass_stops in Hs.
    destruct (eval_loop_total o (max_cnt_of max_exs) (reset w) Hd n 0%nat fuel
                Hs Hfuel) as [[w1 c1] Hr].
    unfold _run_single_eval. simpl in Hr. rewrite Hr. eauto.
Qed.
End SingleEval.

Lemma _run_single_eval_stops_witness :
  exists w' r,
    _run_single_eval 5 example_opt (mk_counter_world 3 1 0 0) (-1)
    = Some (Ok (w', r)).
Proof.
  apply (proj2 (proj2 (_run_single_eval_stops example_opt
                         (mk_counter_world 3 1 0 0) (-1)
                         ltac:(eexists; vm_compute; reflexivity))) 3%nat 5%nat).
  - left. vm_compute. reflexivity.
  - lia.
Defined.

(** A source of 100 examples in batches of 1: with [max_exs = 10] the pass
    takes 10 batch-steps, with [max_exs = 0] it takes all 100. *)
Example _run_single_eval_counter :
  (exists w r, _run_single_eval 200 example_opt (mk_counter_world 100 1 0 0) 10
               = Some (Ok (w, r)) /\ cw_parleys w = 10 /\ cw_seen w = 0)
  /\ (exists w r, _run_single_eval 200 example_opt (mk_counter_world 100 1 0 0) 0
                  = Some (Ok (w, r)) /\ cw_parleys w = 100 /\ cw_seen w = 0).
Proof.
  split; eexists _, _; (split; [vm_compute; reflexivity | split; reflexivity]).
Qed.

(** ** C1: impatience and the best validation value *)

(** The patience check that ends [validate] returns the loop and the disk
    it is given. *)
Ltac inv_result :=
  repeat match goal with
         | H : rbind _ _ = Ok _ |- _ => inv_bind H
         | H : (let '(_, _) := ?p in _) = Ok _ |- _ => destruct p
         | H : (if ?b then _ else _) = Ok _ |- _ => destruct b eqn:?
         | H : Ok _ = Ok _ |- _ => injection H as ?; subst
         end.




Lemma validation_run_cons (self : TrainLoop) (e : env) (r : report)
    (rest : list (env * report)) (fs : filesystem) (states : list TrainLoop) :
  validation_run self ((e, r) :: rest) fs = Ok states ->
  exists s1 fs1 stop tl,
    validate_record self e r fs = Ok (s1, fs1, stop)
    /\ validation_run s1 rest fs1 = Ok tl
    /\ states = s1 :: tl.
Proof.
  simpl. intros H. inv_bind H. destruct a as [[s1 fs1] stop].
  inv_bind H. injection H as <-. eauto 10.
Qed.


Lemma last_cons {A : Type} (x d : A) (l : list A) :
  List.last (x :: l) d = List.last l x.
Proof.
  revert x d. induction l as [|y l IH]; intros x d; [reflexivity|].
  change (List.last (y :: l) d = List.last (y :: l) x).
  now rewrite !IH.
Qed.






Example patient_loop_built :
  TrainLoop_init (<["validation_patience" := VNum 2]> example_opt) empty_fs
  = Ok patient_loop.
Proof. vm_compute. reflexivity. Qed.

Example scenario_b_run :
  validation_run patient_loop scenario_b_steps empty_fs = Ok scenario_b_states
  /\ impatience <$> scenario_b_states = [0; 1; 2]
  /\ best_valid <$> scenario_b_states
     = [Some (1 # 2)%Q; Some (1 # 2)%Q; Some (1 # 2)%Q].
Proof. split; [|split]; vm_compute; reflexivity. Qed.


(** ** The configuration during a run *)

(** A validation keeps the thresholds. *)
Lemma validate_record_thresholds (self self' : TrainLoop) (e : env) (r : report)
    (fs fs' : filesystem) (stop : bool) :
  validate_record self e r fs = Ok (self', fs', stop) ->
  thresholds_of self' = thresholds_of self.
Proof.
  intros H. unfold validate_record in H.
  do 5 inv_bind H.
  destruct (is_new_best _ _); inv_result; reflexivity.
Qed.

(** So does an iteration of the training loop: the thresholds set by the
    constructor are those of every later state. *)
Lemma train_iteration_thresholds {W : Type} `{World W} `{Metrics} (fuel : nat)
    (self : TrainLoop) (e : env) (t : timings) (step : result unit)
    (valid_worlds : list W) (fs : filesystem) (it : iteration W) :
  train_iteration fuel self e t step valid_worlds fs = Some (Ok it) ->
  thresholds_of (it_self it) = thresholds_of self.
Proof.
  unfold train_iteration, on_stop_train, train_checkpoint, validate.
  destruct step as [u|x].
  - destruct (epochs_exhausted _); [now intros [= <-]|].
    destruct (time_exhausted _ _); [now intros [= <-]|].
    destruct (validation_due _ _).
    + destruct (validate_eval _ _ _ _ _) as [[[ws vr]|x]|]; try discriminate.
      * destruct (validate_record _ _ _ _) as [[[s1 fs1] stop]|x] eqn:Hv; simpl.
        -- apply validate_record_thresholds in Hv.
           destruct stop; [now intros [= <-]|].
           destruct (checkpoint_due _ _ _);
             [destruct (do_save_model _ _ _ _); simpl|];
             intros [= <-]; exact Hv.
        -- destruct x; try discriminate.
           destruct (is_distributed e); [discriminate|]. now intros [= <-].
      * destruct x; try discriminate.
        destruct (is_distributed e); [discriminate|]. now intros [= <-].
    + destruct (checkpoint_due _ _ _);
        [destruct (do_save_model _ _ _ _); simpl|]; now intros [= <-].
  - destruct x; try discriminate.
    destruct (is_distributed e); [discriminate|]. now intros [= <-].
Qed.

(** X15.  A loop built on a disk with no file of an earlier run starts
    with no best value, no impatience, no validation report and no
    preempted epochs. *)
Lemma TrainLoop_init_fresh (opt0 : gmap string value) (fs : filesystem)
    (self : TrainLoop) :
  files fs = ∅ ->
  TrainLoop_init opt0 fs = Ok self ->
  best_valid self = None /\ impatience self = 0 /\ valid_reports self = []
  /\ (_preempted_epochs self == 0)%Q.
Proof.
  intros Hfs Hinit.
  destruct (TrainLoop_init_inv _ _ _ Hinit)
    as (opt1 & sfx & stats & _ & _ & _ & _ & _ & _ & _ & _ & _ & Hbest
        & Hstats & Hvr & Him & Hpe & _).
  unfold init_best_valid in Hbest. unfold init_trainstats in Hstats.
  rewrite Hfs in Hbest, Hstats.
  destruct (truthy _).
  - inv_bind Hbest. inv_bind Hstats. rewrite lookup_empty in Hbest, Hstats.
    injection Hbest as <-. injection Hstats as <-.
    rewrite Hvr, Him, Hpe. simpl. repeat split; reflexivity.
  - injection Hbest as <-. injection Hstats as <-.
    rewrite Hvr, Him, Hpe. simpl. repeat split; reflexivity.
Qed.

(** * Further properties of the script *)

(** ** What a validation keeps and what it records *)

(** A validation changes neither the options, the direction, the
    thresholds nor the counters of the training loop, and it appends one
    report to the history: the values of the synced report, with the train
    time under the key [train_time]. *)
Lemma validate_record_frame (self self' : TrainLoop) (e : env) (r : report)
    (fs fs' : filesystem) (stop : bool) :
  validate_record self e r fs = Ok (self', fs', stop) ->
  opt self' = opt self
  /\ valid_optim self' = valid_optim self
  /\ thresholds_of self' = thresholds_of self
  /\ parleys self' = parleys self
  /\ last_valid_epoch self' = last_valid_epoch self
  /\ _preempted_epochs self' = _preempted_epochs self
  /\ train_time_total self' = train_time_total self
  /\ _total_epochs self' = _total_epochs self
  /\ valid_reports self'
     = valid_reports self
       ++ [_values_only (<["train_time" := Raw (train_time_now e)]> r)].
Proof.
  intros H. unfold validate_record in H.
  do 5 inv_bind H.
  destruct (is_new_best _ _); inv_result; simpl;
    repeat match goal with |- _ /\ _ => split end; reflexivity.
Qed.

(** X1.  The history of a run of validations is the history before it
    followed by one recorded report per validation, in order: nothing is
    dropped or rewritten. *)
Theorem validation_run_history (steps : list (env * report)) :
  forall self fs states,
    validation_run self steps fs = Ok states ->
    valid_reports (List.last states self)
    = valid_reports self ++ (recorded_report <$> steps).
Proof.
  induction steps as [|[e r] rest IH]; intros self fs states H.
  - injection H as <-. simpl. now rewrite app_nil_r.
  - apply validation_run_cons in H.
    destruct H as (s1 & fs1 & stop & tl & Hv & Hrun & ->).
    rewrite last_cons, (IH _ _ _ Hrun).
    destruct (validate_record_frame _ _ _ _ _ _ _ Hv)
      as (_ & _ & _ & _ & _ & _ & _ & _ & ->).
    rewrite <- app_assoc. reflexivity.
Qed.

Lemma validation_run_history_witness :
  valid_reports (List.last scenario_b_states patient_loop)
  = valid_reports patient_loop ++ (recorded_report <$> scenario_b_steps).
Proof.
  apply (validation_run_history scenario_b_steps patient_loop empty_fs).
  vm_compute. reflexivity.
Defined.

(** ** The best value of a run *)





(** ** When a validation stops the training *)

(** X3.  A validation asks the loop to stop in two cases only: the metric is
    accuracy and a new best value reaches the cutoff, or the patience is
    positive and the impatience after this validation has reached it.  A
    patience of 0 or less never stops the training, and the cutoff is not
    looked at for any other metric. *)
Theorem validate_record_stop (self self' : TrainLoop) (e : env) (r : report)
    (fs fs' : filesystem) (stop : bool) (key : string) (v patience cutoff : Q)
    (vp vc : value) :
  opt self !! "validation_metric" = Some (VStr key) ->
  opt self !! "validation_patience" = Some vp -> as_num vp = Ok patience ->
  opt self !! "validation_cutoff" = Some vc -> as_num vc = Ok cutoff ->
  report_index r key = Ok v ->
  validate_record self e r fs = Ok (self', fs', stop) ->
  stop = true
  <-> (is_new_best self v = true /\ key = "accuracy"%string /\ (cutoff <= v)%Q)
      \/ ((0 < patience)%Q /\ (patience <= inject_Z (impatience self'))%Q).
Proof.
  intros Hkey Hvp Hp Hvc Hc Hval H. unfold validate_record in H.
  do 2 inv_bind H.
  unfold opt_index in H at 1. simpl in H. rewrite Hkey in H. simpl in H.
  rewrite Hval in H. simpl in H.
  change (is_new_best (set_valid_reports self _) v)
    with (is_new_best self v) in H.
  unfold opt_index in H. simpl in H. rewrite Hvp, Hvc in H. simpl in H.
  rewrite Hp, Hc in H. simpl in H.
  rewrite <- Qgtb_gt, <- !Qgeb_ge.
  destruct (is_new_best self v) eqn:Hb.
  - inv_bind H. destruct a1 as [s2 fs2].
    assert (Himp : impatience s2 = 0).
    { destruct (_ && _) in Ha1; inv_result; reflexivity. }
    destruct (String.eqb_spec key "accuracy") as [->|Hne].
    + destruct (Qgeb v cutoff) eqn:Hcut.
      * injection H as <- <- <-. split; [|reflexivity].
        intros _. left. auto.
      * destruct (Qgtb patience 0 && Qgeb (inject_Z (impatience s2)) patience)
          eqn:Hpat; injection H as <- <- <-.
        -- apply andb_true_iff in Hpat. split; [intros _; right; tauto|reflexivity].
        -- apply andb_false_iff in Hpat. split; [discriminate|].
           intros [(_ & _ & Hx)|[Hx Hy]]; destruct Hpat; congruence.
    + destruct (Qgtb patience 0 && Qgeb (inject_Z (impatience s2)) patience)
        eqn:Hpat; injection H as <- <- <-.
      * apply andb_true_iff in Hpat. split; [intros _; right; tauto|reflexivity].
      * apply andb_false_iff in Hpat. split; [discriminate|].
        intros [(_ & Hx & _)|[Hx Hy]]; [contradiction|].
        destruct Hpat; congruence.
  - simpl in H.
    destruct (Qgtb patience 0 && Qgeb (inject_Z (impatience self + 1)) patience)
      eqn:Hpat; injection H as <- <- <-; simpl.
    + apply andb_true_iff in Hpat. split; [intros _; right; tauto|reflexivity].
    + apply andb_false_iff in Hpat. split; [discriminate|].
      intros [(Hx & _)|[Hx Hy]]; [discriminate|].
      destruct Hpat; congruence.
Qed.

Lemma validate_record_stop_witness :
  exists s f,
    validate_record patient_loop (single_worker 0 0)
      {[ "accuracy"%string := Metric 1 ]} empty_fs = Ok (s, f, true).
Proof.
  destruct (validate_record patient_loop (single_worker 0 0)
              {[ "accuracy"%string := Metric 1 ]} empty_fs)
    as [[[s f] stop]|x] eqn:E.
  - exists s, f. f_equal. f_equal.
    apply (validate_record_stop patient_loop s (single_worker 0 0)
             {[ "accuracy"%string := Metric 1 ]} empty_fs f stop "accuracy"
             1%Q 2%Q 1%Q (VNum 2) (VNum 1));
      [ vm_compute; reflexivity | vm_compute; reflexivity | reflexivity
      | vm_compute; reflexivity | reflexivity | vm_compute; reflexivity
      | exact E | ].
    left. split; [vm_compute; reflexivity|]. split; [reflexivity|].
    vm_compute. discriminate.
  - vm_compute in E. discriminate E.
Defined.

(** ** Who writes to the disk *)

Lemma save_model_not_primary (self : TrainLoop) (e : env)
    (suffix : option string) (signals : list interruption) (fs : filesystem) :
  is_primary_worker e = false ->
  save_model self e suffix signals fs = (fs, Ok tt).
Proof. intros Hp. unfold save_model. now rewrite Hp. Qed.

(** On a worker that is not the primary one a validation leaves the disk
    as it is and the [saved] flag as it was, whatever the options and the
    report: all the saves of [validate] are the primary worker's. *)
Lemma validate_record_not_primary (self self' : TrainLoop) (e : env)
    (r : report) (fs fs' : filesystem) (stop : bool) :
  is_primary_worker e = false ->
  validate_record self e r fs = Ok (self', fs', stop) ->
  fs' = fs /\ saved self' = saved self.
Proof.
  intros Hp H. unfold validate_record in H. rewrite Hp in H.
  rewrite !andb_false_r in H. simpl in H.
  do 4 inv_bind H.
  destruct (is_new_best _ _); inv_result; simpl; auto.
Qed.

(** ** What validation never raises *)

Lemma rbind_Raise {A B : Type} (m : result A) (k : A -> result B) (x : exn) :
  rbind m k = Raise x <-> m = Raise x \/ exists a, m = Ok a /\ k a = Raise x.
Proof.
  destruct m as [a|y]; simpl.
  - split; [eauto|]. intros [Hm|(a' & [= <-] & Hk)]; [discriminate|exact Hk].
  - split; [intros [= ->]; now left|].
    intros [[= ->]|(a' & Hm & _)]; [reflexivity|discriminate].
Qed.

Lemma opt_index_raises (o : gmap string value) (k : string) (x : exn) :
  opt_index o k = Raise x -> x = KeyError k.
Proof. unfold opt_index. destruct (o !! k); [discriminate|]. now intros [= <-]. Qed.

Lemma write_file_raises (fs : filesystem) (p : string) (c : file) (x : exn) :
  write_file fs p c = Raise x -> x = OSError.
Proof. unfold write_file. destruct (bool_decide _); [|discriminate]. now intros [= <-]. Qed.

Lemma save_path_raises (self : TrainLoop) (suffix : option string) (x : exn) :
  save_path self suffix = Raise x -> x <> StopTrainException.
Proof.
  unfold save_path, opt_index.
  destruct (opt self !! "model_file") as [[| | |s]|]; simpl;
    intros [= <-]; discriminate.
Qed.

Lemma do_save_model_raises (self : TrainLoop) (e : env) (suffix : option string)
    (fs : filesystem) (x : exn) :
  do_save_model self e suffix fs = Raise x -> x <> StopTrainException.
Proof.
  unfold do_save_model, save_model.
  destruct (negb (is_primary_worker e)); [discriminate|].
  destruct (negb (truthy _)); [discriminate|].
  destruct (save_path self suffix) as [fn|y] eqn:Ep.
  - simpl. unfold save_attempt, agent_save, _save_train_stats.
    destruct (write_file fs fn FModel) as [fs1|y] eqn:E1.
    + rewrite Ep. simpl.
      destruct (write_file fs1 _ _) as [fs2|y] eqn:E2; [discriminate|].
      intros [= <-]. apply write_file_raises in E2 as ->. discriminate.
    + intros [= <-]. apply write_file_raises in E1 as ->. discriminate.
  - intros [= <-]. exact (save_path_raises _ _ _ Ep).
Qed.

(** Take apart a hypothesis [... = Raise StopTrainException] built from
    the steps of the error monad. *)
Ltac no_stop_train H :=
  repeat first
    [ apply rbind_Raise in H; destruct H as [H | (? & ? & H)]
    | match type of H with
      | opt_index _ _ = Raise _ => apply opt_index_raises in H; discriminate H
      | write_file _ _ _ = Raise _ => apply write_file_raises in H; discriminate H
      | _save_best_valid _ _ _ = Raise _ =>
          apply write_file_raises in H; discriminate H
      | do_save_model _ _ _ _ = Raise _ =>
          apply do_save_model_raises in H; now contradiction H
      | as_num ?v = Raise _ => destruct v; discriminate H
      | as_str ?v = Raise _ => destruct v; discriminate H
      | as_key ?v = Raise _ => destruct v; discriminate H
      | as_int ?v = Raise _ => destruct v; simpl in H
      | report_index _ _ = Raise _ => unfold report_index in H
      | Ok _ = Raise _ => discriminate H
      | Raise ?x = Raise _ => discriminate H
      | (if ?b then _ else _) = Raise _ => destruct b
      | (let '(_, _) := ?p in _) = Raise _ => destruct p
      | match ?p with _ => _ end = Raise _ => destruct p
      end ].

Lemma validate_record_never_stop_train (self : TrainLoop) (e : env) (r : report)
    (fs : filesystem) :
  validate_record self e r fs <> Raise StopTrainException.
Proof.
  intros H. unfold validate_record in H. no_stop_train H.
Qed.

Lemma eval_loop_raises {W : Type} `{World W} (fuel : nat)
    (o : gmap string value) (max_cnt : ext) :
  forall (w : W) (cnt : Z) (x : exn),
    eval_loop fuel o max_cnt w cnt = Some (Raise x) ->
    x = KeyError "display_examples".
Proof.
  induction fuel as [|fuel IH]; intros w cnt x; simpl;
    destruct (negb (epoch_done w) && lt_ext (inject_Z cnt) max_cnt);
    try discriminate.
  destruct (if cnt =? 0 then _ else _) as [v|y] eqn:Hd.
  - apply IH.
  - intros [= <-]. destruct (cnt =? 0); [|discriminate].
    now apply opt_index_raises in Hd.
Qed.

Lemma _run_single_eval_raises {W : Type} `{World W} (fuel : nat)
    (o : gmap string value) (w : W) (max_exs : Q) (x : exn) :
  _run_single_eval fuel o w max_exs = Some (Raise x) ->
  x = KeyError "display_examples".
Proof.
  unfold _run_single_eval.
  destruct (eval_loop fuel o (max_cnt_of max_exs) (reset w) 0)
    as [[[w1 c]|y]|] eqn:Hl; try discriminate.
  intros [= <-]. exact (eval_loop_raises _ _ _ _ _ _ Hl).
Qed.

Lemma run_eval_worlds_raises {W : Type} `{World W} (fuel : nat)
    (o : gmap string value) (per_world : Q) (worlds : list W) (x : exn) :
  run_eval_worlds fuel o worlds per_world = Some (Raise x) ->
  x = KeyError "display_examples".
Proof.
  induction worlds as [|w rest IH]; simpl; [discriminate|].
  destruct (_run_single_eval fuel o w per_world) as [[[w' tr]|y]|] eqn:Hs;
    try discriminate.
  - destruct (run_eval_worlds fuel o rest per_world) as [[[ws rs]|y]|];
      try discriminate.
    intros [= <-]. now apply IH.
  - intros [= <-]. exact (_run_single_eval_raises _ _ _ _ _ Hs).
Qed.

(** The only error a validation pass can raise on its own account is the
    [KeyError] of a missing [display_examples] or [validation_max_exs]
    option, or the [TypeError] of a [validation_max_exs] that is not an
    integer. *)
Lemma validate_eval_raises {W : Type} `{World W} `{Metrics} (fuel : nat)
    (self : TrainLoop) (e : env) (valid_worlds : list W) (fs : filesystem)
    (x : exn) :
  validate_eval fuel self e valid_worlds fs = Some (Raise x) ->
  x = KeyError "display_examples" \/ x = KeyError "validation_max_exs"
  \/ x = TypeError.
Proof.
  unfold validate_eval.
  destruct (let* v := opt_index (opt self) "validation_max_exs" in as_int v)
    as [vme|y] eqn:Hv.
  - unfold run_eval.
    destruct (run_eval_worlds _ _ _ _) as [[[ws rs]|y]|] eqn:Hr;
      try discriminate.
    intros [= <-]. left. exact (run_eval_worlds_raises _ _ _ _ _ Hr).
  - intros [= <-]. apply rbind_Raise in Hv as [Hv|(v & _ & Hv)].
    + apply opt_index_raises in Hv. auto.
    + right. right. destruct v as [| |q|]; cbn [as_int] in Hv; try congruence.
      destruct (Qden q =? 1)%positive; congruence.
Qed.

Lemma validate_never_stop_train {W : Type} `{World W} `{Metrics} (fuel : nat)
    (self : TrainLoop) (e : env) (valid_worlds : list W) (fs : filesystem) :
  validate fuel self e valid_worlds fs <> Some (Raise StopTrainException).
Proof.
  unfold validate.
  destruct (validate_eval fuel self e valid_worlds fs) as [[[ws vr]|y]|] eqn:He;
    try discriminate.
  - destruct (validate_record self e vr fs) as [[[s1 fs1] stop]|y] eqn:Hv;
      simpl; [discriminate|].
    intros [= ->]. exact (validate_record_never_stop_train _ _ _ _ Hv).
  - intros [= ->].
    destruct (validate_eval_raises _ _ _ _ _ _ He) as [Hx|[Hx|Hx]];
      discriminate.
Qed.

(** ** One iteration of the training loop, case by case *)

Lemma train_checkpoint_inv {W : Type} (self : TrainLoop) (e : env) (t : timings)
    (worlds : list W) (fs : filesystem) (acts : list action) (it : iteration W) :
  train_checkpoint self e t worlds fs acts = Ok it ->
  it_self it = self /\ it_worlds it = worlds /\ it_control it = Continue
  /\ ((checkpoint_due self e t = true
       /\ do_save_model self e (Some ".checkpoint"%string) fs = Ok (it_fs it)
       /\ it_actions it = acts ++ [ActSaveCheckpoint])
      \/ (checkpoint_due self e t = false
          /\ it_fs it = fs /\ it_actions it = acts)).
Proof.
  unfold train_checkpoint. destruct (checkpoint_due self e t).
  - intros H. inv_bind H. injection H as <-. simpl. auto 10.
  - intros [= <-]. simpl. auto 10.
Qed.

(** The ways an iteration whose training step succeeds can end. *)
Lemma train_iteration_inv {W : Type} `{World W} `{Metrics} (fuel : nat)
    (self : TrainLoop) (e : env) (t : timings) (u : unit)
    (valid_worlds : list W) (fs : filesystem) (it : iteration W) :
  train_iteration fuel self e t (Ok u) valid_worlds fs = Some (Ok it) ->
  let s := progressed self e in
  let acts := if log_due s t then [ActLog] else [] in
  (epochs_exhausted s = true
   /\ it = mk_iteration W s valid_worlds fs
             [ActLog; ActPrintNumEpochsCompleted] Break)
  \/ (epochs_exhausted s = false /\ time_exhausted s t = true
      /\ it = mk_iteration W s valid_worlds fs
                [ActPrintMaxTrainTimeElapsed] Break)
  \/ (epochs_exhausted s = false /\ time_exhausted s t = false
      /\ validation_due s t = false
      /\ train_checkpoint s e t valid_worlds fs acts = Ok it)
  \/ (epochs_exhausted s = false /\ time_exhausted s t = false
      /\ validation_due s t = true
      /\ exists ws vr s1 fs1 stop,
          validate_eval fuel s e valid_worlds fs = Some (Ok (ws, vr))
          /\ validate_record s e vr fs = Ok (s1, fs1, stop)
          /\ let s2 := set_last_valid_epoch s1 (_total_epochs s1) in
             (stop = true
              /\ it = mk_iteration W s2 ws fs1 (acts ++ [ActValidate]) Break)
             \/ (stop = false
                 /\ train_checkpoint s2 e t ws fs1 (acts ++ [ActValidate])
                    = Ok it)).
Proof.
  intros Hit s acts. unfold train_iteration, on_stop_train in Hit.
  fold s in Hit.
  destruct (epochs_exhausted s); [left; injection Hit as <-; auto|].
  destruct (time_exhausted s t); [right; left; injection Hit as <-; auto|].
  destruct (validation_due s t).
  - right. right. right. repeat split.
    destruct (validate fuel s e valid_worlds fs)
      as [[[[[s1 ws] fs1] stop]|x]|] eqn:Hval; [| |discriminate].
    + unfold validate in Hval.
      destruct (validate_eval fuel s e valid_worlds fs) as [[[ws' vr]|x]|];
        try discriminate.
      destruct (validate_record s e vr fs) as [[[s1' fs1'] stop']|x] eqn:Hv;
        simpl in Hval; [|discriminate].
      injection Hval as -> -> -> ->.
      exists ws, vr, s1, fs1, stop. split; [reflexivity|]. split; [exact Hv|].
      simpl. destruct stop.
      * left. injection Hit as <-. auto.
      * right. injection Hit as Hit. auto.
    + destruct x; try discriminate.
      exfalso. exact (validate_never_stop_train _ _ _ _ _ Hval).
  - right. right. left. injection Hit as Hit. auto.
Qed.

(** ** What an iteration does to the loop object and to the disk *)

Section Iteration.
Context {W : Type} `{World W} `{Metrics}.

(** X4.  An iteration whose training step succeeds counts one more parley
    and sets the total epochs to the epochs of the preempted run plus the
    number of workers times the epochs of this run; the preempted epochs
    themselves are kept.  So the total is never below the epochs restored
    from a stats file. *)
Theorem train_iteration_counters (fuel : nat) (self : TrainLoop) (e : env)
    (t : timings) (u : unit) (valid_worlds : list W) (fs : filesystem)
    (it : iteration W) :
  train_iteration fuel self e t (Ok u) valid_worlds fs = Some (Ok it) ->
  parleys (it_self it) = parleys self + 1
  /\ _total_epochs (it_self it)
     = (_preempted_epochs self
        + inject_Z (num_workers e) * world_total_epochs e)%Q
  /\ _preempted_epochs (it_self it) = _preempted_epochs self
  /\ (0 <= num_workers e -> (0 <= world_total_epochs e)%Q ->
      (_preempted_epochs self <= _total_epochs (it_self it))%Q).
Proof.
  intros Hit.
  assert (Hmain : parleys (it_self it) = parleys self + 1
                  /\ _total_epochs (it_self it)
                     = (_preempted_epochs self
                        + inject_Z (num_workers e) * world_total_epochs e)%Q
                  /\ _preempted_epochs (it_self it) = _preempted_epochs self).
  { destruct (train_iteration_inv _ _ _ _ _ _ _ _ Hit)
      as [[_ ->]|[(_ & _ & ->)|[(_ & _ & _ & Hc)|(_ & _ & _ & Hv)]]];
      [simpl; auto | simpl; auto | |].
    - destruct (train_checkpoint_inv _ _ _ _ _ _ _ Hc) as (-> & _).
      simpl. auto.
    - destruct Hv as (ws & vr & s1 & fs1 & stop & _ & Hrec & Hend).
      destruct (validate_record_frame _ _ _ _ _ _ _ Hrec)
        as (_ & _ & _ & Hp & _ & Hpe & _ & Hte & _).
      destruct Hend as [[_ ->]|[_ Hc]].
      + simpl. rewrite Hp, Hte, Hpe. simpl. auto.
      + destruct (train_checkpoint_inv _ _ _ _ _ _ _ Hc) as (-> & _).
        simpl. rewrite Hp, Hte, Hpe. simpl. auto. }
  destruct Hmain as (Hp & Hte & Hpe). repeat split; try assumption.
  intros Hn Hw. rewrite Hte.
  assert (Hz : (0 <= inject_Z (num_workers e))%Q).
  { change 0%Q with (inject_Z 0). now rewrite <- Zle_Qle. }
  pose proof (Qmult_le_0_compat _ _ Hz Hw). lra.
Qed.

(** An iteration keeps the configuration: the options, the optimization
    direction and the six thresholds of its result are those it started
    with, whether it validates, saves, stops or is cut short by a
    [StopTrainException]. *)
Lemma train_iteration_config (fuel : nat) (self : TrainLoop)
    (e : env) (t : timings) (step : result unit) (valid_worlds : list W)
    (fs : filesystem) (it : iteration W) :
  train_iteration fuel self e t step valid_worlds fs = Some (Ok it) ->
  opt (it_self it) = opt self
  /\ valid_optim (it_self it) = valid_optim self
  /\ thresholds_of (it_self it) = thresholds_of self.
Proof.
  intros Hit. destruct step as [u|x].
  - destruct (train_iteration_inv _ _ _ _ _ _ _ _ Hit)
      as [[_ ->]|[(_ & _ & ->)|[(_ & _ & _ & Hc)|(_ & _ & _ & Hv)]]];
      [simpl; auto | simpl; auto | |].
    + destruct (train_checkpoint_inv _ _ _ _ _ _ _ Hc) as (-> & _).
      simpl. auto.
    + destruct Hv as (ws & vr & s1 & fs1 & stop & _ & Hrec & Hend).
      destruct (validate_record_frame _ _ _ _ _ _ _ Hrec)
        as (Ho & Hd & Ht & _).
      destruct Hend as [[_ ->]|[_ Hc]].
      * simpl. rewrite Ho, Hd. split; [reflexivity|]. split; [reflexivity|].
        exact Ht.
      * destruct (train_checkpoint_inv _ _ _ _ _ _ _ Hc) as (-> & _).
        simpl. rewrite Ho, Hd. split; [reflexivity|]. split; [reflexivity|].
        exact Ht.
  - unfold train_iteration, on_stop_train in Hit.
    destruct x; try discriminate.
    destruct (is_distributed e); [discriminate|].
    injection Hit as <-. simpl. auto.
Qed.


(** On a worker that is not the primary one an iteration of the training
    loop never changes the disk. *)
Lemma train_iteration_not_primary (fuel : nat) (self : TrainLoop) (e : env)
    (t : timings) (step : result unit) (valid_worlds : list W)
    (fs : filesystem) (it : iteration W) :
  is_primary_worker e = false ->
  train_iteration fuel self e t step valid_worlds fs = Some (Ok it) ->
  it_fs it = fs.
Proof.
  intros Hp Hit.
  assert (Hck : forall s (ws : list W) f acts (it' : iteration W),
             train_checkpoint s e t ws f acts = Ok it' -> it_fs it' = f).
  { intros s ws f acts it' Hc.
    destruct (train_checkpoint_inv _ _ _ _ _ _ _ Hc)
      as (_ & _ & _ & [(Hdue & _)|(_ & -> & _)]); [|reflexivity].
    unfold checkpoint_due in Hdue. rewrite Hp, andb_false_r in Hdue.
    discriminate. }
  destruct step as [u|x].
  - destruct (train_iteration_inv _ _ _ _ _ _ _ _ Hit)
      as [[_ ->]|[(_ & _ & ->)|[(_ & _ & _ & Hc)|(_ & _ & _ & Hv)]]];
      [reflexivity | reflexivity | exact (Hck _ _ _ _ _ Hc) |].
    destruct Hv as (ws & vr & s1 & fs1 & stop & _ & Hrec & Hend).
    destruct (validate_record_not_primary _ _ _ _ _ _ _ Hp Hrec) as [-> _].
    destruct Hend as [[_ ->]|[_ Hc]]; [reflexivity | exact (Hck _ _ _ _ _ Hc)].
  - unfold train_iteration, on_stop_train in Hit.
    destruct x; try discriminate.
    destruct (is_distributed e); [discriminate|].
    now injection Hit as <-.
Qed.
End Iteration.

(** ** The worlds of an evaluation *)

Lemma split_on_nonempty (sep : Ascii.ascii) (s : string) : split_on sep s <> [].
Proof.
  induction s as [|c r IH]; simpl; [discriminate|].
  destruct (Ascii.eqb c sep); [discriminate|].
  destruct (split_on sep r); [contradiction|discriminate].
Qed.

Lemma split_on_length (sep : Ascii.ascii) (s : string) :
  length (split_on sep s) = S (count_char sep s).
Proof.
  induction s as [|c r IH]; simpl; [reflexivity|].
  destruct (Ascii.eqb c sep); simpl; [now rewrite IH|].
  pose proof (split_on_nonempty sep r).
  destruct (split_on sep r); [contradiction|]. exact IH.
Qed.

Lemma join_with_cons (sep : Ascii.ascii) (s : string) (l : list string) :
  l <> [] ->
  join_with sep (s :: l) = (s +:+ String sep (join_with sep l))%string.
Proof. destruct l; [contradiction|reflexivity]. Qed.

Lemma join_with_head (sep c : Ascii.ascii) (h : string) (t : list string) :
  join_with sep (String c h :: t) = String c (join_with sep (h :: t)).
Proof. destruct t; reflexivity. Qed.

Lemma split_on_join (sep : Ascii.ascii) (s : string) :
  join_with sep (split_on sep s) = s.
Proof.
  induction s as [|c r IH]; simpl; [reflexivity|].
  pose proof (split_on_nonempty sep r) as Hne.
  destruct (Ascii.eqb_spec c sep) as [->|Hc].
  - rewrite join_with_cons by exact Hne. simpl. now rewrite IH.
  - destruct (split_on sep r) as [|h t]; [contradiction|].
    now rewrite join_with_head, IH.
Qed.

Lemma split_on_pieces (sep : Ascii.ascii) (s : string) :
  Forall (fun piece => count_char sep piece = O) (split_on sep s).
Proof.
  induction s as [|c r IH]; simpl; [repeat constructor|].
  destruct (Ascii.eqb c sep) eqn:Hc; [now constructor|].
  destruct (split_on sep r) as [|h t]; [repeat constructor; simpl; now rewrite Hc|].
  inversion IH as [|? ? Hh Ht]; subst. constructor; [|exact Ht].
  simpl. now rewrite Hc.
Qed.

(** The options that [load_eval_worlds] works with. *)
Lemma eval_opt_spec (o o' : gmap string value) (datatype : string) :
  eval_opt o datatype = Ok o' ->
  exists dts,
    o !! "datatype" = Some (VStr dts)
    /\ o' !! "datatype"
       = Some (VStr (if substring_of "stream" dts
                     then (datatype +:+ ":stream")%string else datatype))
    /\ o' !! "task" = eval_task o
    /\ (truthy (opt_get o "pytorch_teacher_task") = true ->
        o' !! "pytorch_teacher_task" = None)
    /\ o' !! "batchsize"
       = (if truthy (opt_get o "eval_batchsize")
          then Some (opt_get o "eval_batchsize") else o !! "batchsize")
    /\ forall k, k <> "datatype"%string -> k <> "task"%string ->
                 k <> "pytorch_teacher_task"%string ->
                 k <> "batchsize"%string -> o' !! k = o !! k.
Proof.
  unfold eval_opt, opt_index. intros H.
  destruct (o !! "datatype") as [dt|] eqn:Hdt; [|discriminate]. simpl in H.
  destruct dt as [| | |dts]; try discriminate. simpl in H.
  exists dts. split; [reflexivity|].
  injection H as <-. unfold eval_task, opt_get.
  repeat rewrite ?lookup_insert_ne, ?lookup_delete_ne by discriminate.
  destruct (truthy (default VNone (o !! "pytorch_teacher_task"))) eqn:Hp;
    repeat rewrite ?lookup_insert_ne, ?lookup_delete_ne by discriminate;
    destruct (truthy (default VNone (o !! "evaltask"))) eqn:He;
    repeat rewrite ?lookup_insert_ne, ?lookup_delete_ne by discriminate;
    destruct (truthy (default VNone (o !! "eval_batchsize"))) eqn:Hb;
    repeat split;
    repeat first
      [ rewrite lookup_insert_eq
      | rewrite lookup_delete_eq
      | rewrite lookup_insert_ne by congruence
      | rewrite lookup_delete_ne by congruence ];
    try reflexivity; try discriminate; intros; 
    repeat first
      [ rewrite lookup_insert_ne by congruence
      | rewrite lookup_delete_ne by congruence ];
    try reflexivity.
Qed.

(** X8.  [load_eval_worlds] evaluates [evaltask] when it is set, else
    [pytorch_teacher_task] when it is set, else [task], and creates one
    world per comma-separated task of it, in order: one more world than
    there are commas, none of the tasks holding a comma, and the tasks
    joined by commas giving the option back.  Every world gets the
    evaluation options with its own task. *)
Theorem load_eval_worlds_spec {W : Type}
    (create_task : gmap string value -> bool -> W) (o : gmap string value)
    (datatype : string) (ws : list W) :
  load_eval_worlds create_task o datatype = Ok ws ->
  exists o' ts,
    eval_opt o datatype = Ok o'
    /\ eval_task o = Some (VStr ts)
    /\ length ws = S (count_char comma ts)
    /\ join_with comma (split_on comma ts) = ts
    /\ forall i w,
        ws !! i = Some w ->
        exists task,
          split_on comma ts !! i = Some task
          /\ count_char comma task = O
          /\ w = create_task (<["task" := VStr task]> o')
                   (truthy (opt_get_default o "validation_share_agent"
                              (VBool false))).
Proof.
  unfold load_eval_worlds. intros H.
  inv_bind H. rename a into o'. inv_bind H. inv_bind H.
  injection H as <-.
  destruct (eval_opt_spec _ _ _ Ha) as (dts & _ & _ & Htask & _ & _ & Hother).
  unfold opt_index in Ha0. rewrite Htask in Ha0.
  destruct (eval_task o) as [t|] eqn:Ht; [|discriminate].
  injection Ha0 as <-. destruct t as [| | |ts]; try discriminate.
  injection Ha1 as <-.
  exists o', ts. split; [exact Ha|]. split; [first [exact Ht | reflexivity]|].
  split; [now rewrite length_fmap, split_on_length|].
  split; [apply split_on_join|].
  intros i w Hw. rewrite list_lookup_fmap in Hw.
  destruct (split_on comma ts !! i) as [task|] eqn:Hi; [|discriminate].
  injection Hw as <-. exists task. split; [reflexivity|]. split.
  - pose proof (split_on_pieces comma ts) as Hall.
    rewrite Forall_forall in Hall. apply Hall.
    apply list_elem_of_lookup. eauto.
  - unfold opt_get_default. now rewrite Hother by discriminate.
Qed.

Lemma load_eval_worlds_spec_witness :
  exists ws : list counter_world,
    load_eval_worlds three_examples run_opt "valid" = Ok ws
    /\ length ws = 2%nat.
Proof.
  destruct (load_eval_worlds three_examples run_opt "valid") as [ws|x] eqn:E.
  - exists ws. split; [reflexivity|].
    destruct (load_eval_worlds_spec three_examples run_opt "valid" ws E)
      as (o' & ts & _ & Hts & Hlen & _).
    vm_compute in Hts. injection Hts as <-. exact Hlen.
  - vm_compute in E. discriminate E.
Defined.

(** ** The snapshot of the model on the disk *)

Lemma write_file_files (fs fs' : filesystem) (p : string) (c : file) :
  write_file fs p c = Ok fs' ->
  files fs' = <[p := c]> (files fs) /\ denied fs' = denied fs.
Proof.
  unfold write_file. destruct (bool_decide _); [discriminate|].
  intros [= <-]. auto.
Qed.

Lemma append_line_files (fs fs' : filesystem) (p line : string) :
  append_line fs p line = Ok fs' ->
  (exists old, files fs' = <[p := FLog (old ++ [line])]> (files fs))
  /\ denied fs' = denied fs.
Proof.
  unfold append_line. destruct (bool_decide _); [discriminate|].
  intros [= <-]. simpl. eauto.
Qed.

Lemma append_neq_prefix (s t : string) : t <> ""%string -> (s +:+ t)%string <> s.
Proof. intros Ht Heq. symmetry in Heq. revert Heq. now apply append_nonempty_neq. Qed.

(** What a save leaves on the disk: on the primary worker with a model
    file, the snapshot at the save path and the stats beside it; else
    nothing. *)
Lemma do_save_model_files (self : TrainLoop) (e : env) (suffix : option string)
    (fs fs' : filesystem) :
  do_save_model self e suffix fs = Ok fs' ->
  (is_primary_worker e && truthy (opt_get (opt self) "model_file") = false
   /\ fs' = fs)
  \/ (is_primary_worker e && truthy (opt_get (opt self) "model_file") = true
      /\ exists fn,
          save_path self suffix = Ok fn
          /\ files fs'
             = <[(fn +:+ ".trainstats")%string := FJson (trainstats_json self e)]>
                 (<[fn := FModel]> (files fs))
          /\ denied fs' = denied fs).
Proof.
  unfold do_save_model, save_model.
  destruct (is_primary_worker e); simpl; [|intros [= <-]; now left].
  destruct (truthy (opt_get (opt self) "model_file")); simpl;
    [|intros [= <-]; now left].
  destruct (save_path self suffix) as [fn|x] eqn:Hp; [|discriminate].
  simpl. unfold save_attempt, agent_save, _save_train_stats. rewrite Hp. simpl.
  destruct (write_file fs fn FModel) as [fs1|x] eqn:H1; [|discriminate].
  destruct (write_file fs1 _ _) as [fs2|x] eqn:H2; [|discriminate].
  intros [= <-]. right. split; [reflexivity|]. exists fn.
  split; [reflexivity|].
  apply write_file_files in H1 as [H1 H1d]. apply write_file_files in H2 as [H2 H2d].
  rewrite H2, H1, H2d, H1d. auto.
Qed.

(** A save never removes the snapshot at the model file, and the save
    with no suffix puts it there. *)
Lemma do_save_model_snapshot (self : TrainLoop) (e : env)
    (suffix : option string) (fs fs' : filesystem) (mf : string) :
  opt_get (opt self) "model_file" = VStr mf ->
  do_save_model self e suffix fs = Ok fs' ->
  (files fs !! mf = Some FModel -> files fs' !! mf = Some FModel)
  /\ (suffix = None -> is_primary_worker e = true -> mf <> ""%string ->
      files fs' !! mf = Some FModel).
Proof.
  intros Hmf Hs.
  assert (Hidx : forall v, opt self !! "model_file" = Some v -> v = VStr mf).
  { intros v Hv. unfold opt_get in Hmf. rewrite Hv in Hmf. exact Hmf. }
  destruct (do_save_model_files _ _ _ _ _ Hs)
    as [[Hoff ->]|(Hon & fn & Hfn & Hfiles & _)].
  - split; [auto|]. intros _ Hp Hne. rewrite Hp, Hmf in Hoff. simpl in Hoff.
    destruct (String.eqb_spec mf ""); [contradiction|discriminate].
  - unfold save_path, opt_index in Hfn.
    destruct (opt self !! "model_file") as [v|] eqn:Hv; [|discriminate].
    rewrite (Hidx v eq_refl) in Hfn. simpl in Hfn. injection Hfn as <-.
    rewrite Hfiles.
    assert (Hts : forall s, ((mf +:+ s) +:+ ".trainstats")%string <> mf).
    { intros s. rewrite string_append_assoc. apply append_neq_prefix.
      destruct s; discriminate. }
    split.
    + intros Hkeep. destruct suffix as [s|].
      * rewrite lookup_insert_ne by apply Hts.
        destruct (decide ((mf +:+ s)%string = mf)) as [->|Hne];
          [apply lookup_insert_eq | now rewrite lookup_insert_ne].
      * rewrite lookup_insert_ne by (apply append_neq_prefix; discriminate).
        apply lookup_insert_eq.
    + intros -> _ _.
      rewrite lookup_insert_ne by (apply append_neq_prefix; discriminate).
      apply lookup_insert_eq.
Qed.

Lemma validate_record_snapshot (self self' : TrainLoop) (e : env) (r : report)
    (fs fs' : filesystem) (stop : bool) (mf : string) :
  opt_get (opt self) "model_file" = VStr mf -> mf <> ""%string ->
  validate_record self e r fs = Ok (self', fs', stop) ->
  snapshot_kept mf self fs -> snapshot_kept mf self' fs'.
Proof.
  intros Hmf Hne H Hinv. unfold validate_record in H.
  apply rbind_Ok in H as (tb & _ & H).
  apply rbind_Ok in H as (fs0 & Hck & H).
  assert (Hkeep0 : files fs !! mf = Some FModel -> files fs0 !! mf = Some FModel).
  { destruct (_ && _) in Hck; [|now injection Hck as <-].
    apply (do_save_model_snapshot _ _ _ _ _ mf) in Hck;
      [exact (proj1 Hck) | exact Hmf]. }
  apply rbind_Ok in H as (vm & _ & H).
  apply rbind_Ok in H as (key & _ & H).
  apply rbind_Ok in H as (v & _ & H).
  destruct (is_new_best _ _).
  - apply rbind_Ok in H as ([s2 fs2] & Hsave & H).
    assert (Hs2 : (saved s2 = saved self
                   /\ (files fs0 !! mf = Some FModel -> files fs2 !! mf = Some FModel))
                  \/ files fs2 !! mf = Some FModel).
    { rewrite Hmf, (truthy_nonempty _ Hne) in Hsave. simpl in Hsave.
      destruct (is_primary_worker e) eqn:Hp.
      - right.
        apply rbind_Ok in Hsave as (fs1 & Hbest & Hsave).
        apply rbind_Ok in Hsave as (fsb & Hwrite & Hsave).
        injection Hsave as <- <-.
        apply (do_save_model_snapshot _ _ _ _ _ mf) in Hbest as [_ Hw];
          [|exact Hmf].
        apply write_file_files in Hwrite as [-> _].
        rewrite lookup_insert_ne by (apply append_neq_prefix; discriminate).
        now apply Hw.
      - left. injection Hsave as <- <-. simpl. auto. }
    assert (Hend : self' = s2 /\ fs' = fs2).
    { destruct (String.eqb key "accuracy"); inv_result; auto. }
    destruct Hend as [-> ->]. intros Hsaved.
    destruct Hs2 as [[Hsame Hk]|Hw]; [|exact Hw].
    rewrite Hsame in Hsaved. auto.
  - inv_result; intros Hsaved; simpl in Hsaved; auto.
Qed.

Section Snapshot.
Context {W : Type} `{World W} `{Metrics}.

Lemma train_checkpoint_snapshot (self : TrainLoop) (e : env) (t : timings)
    (worlds : list W) (fs : filesystem) (acts : list action) (it : iteration W)
    (mf : string) :
  opt_get (opt self) "model_file" = VStr mf ->
  train_checkpoint self e t worlds fs acts = Ok it ->
  snapshot_kept mf self fs -> snapshot_kept mf (it_self it) (it_fs it).
Proof.
  intros Hmf Hc Hinv.
  destruct (train_checkpoint_inv _ _ _ _ _ _ _ Hc)
    as (-> & _ & _ & [(_ & Hs & _)|(_ & -> & _)]); [|exact Hinv].
  intros Hsaved.
  apply (proj1 (do_save_model_snapshot _ _ _ _ _ mf Hmf Hs)). auto.
Qed.

(** An iteration keeps the [saved] flag true to the disk. *)
Lemma train_iteration_snapshot (fuel : nat) (self : TrainLoop) (e : env)
    (t : timings) (step : result unit) (valid_worlds : list W)
    (fs : filesystem) (it : iteration W) (mf : string) :
  opt_get (opt self) "model_file" = VStr mf -> mf <> ""%string ->
  train_iteration fuel self e t step valid_worlds fs = Some (Ok it) ->
  snapshot_kept mf self fs -> snapshot_kept mf (it_self it) (it_fs it).
Proof.
  intros Hmf Hne Hit Hinv. destruct step as [u|x].
  - assert (Hmf0 : opt_get (opt (progressed self e)) "model_file" = VStr mf)
      by exact Hmf.
    assert (Hinv0 : snapshot_kept mf (progressed self e) fs) by exact Hinv.
    destruct (train_iteration_inv _ _ _ _ _ _ _ _ Hit)
      as [[_ ->]|[(_ & _ & ->)|[(_ & _ & _ & Hc)|(_ & _ & _ & Hv)]]];
      [exact Hinv0 | exact Hinv0 | |].
    + exact (train_checkpoint_snapshot _ _ _ _ _ _ _ mf Hmf0 Hc Hinv0).
    + destruct Hv as (ws & vr & s1 & fs1 & stop & _ & Hrec & Hend).
      pose proof (validate_record_snapshot _ _ _ _ _ _ _ mf Hmf0 Hne Hrec Hinv0)
        as Hinv1.
      destruct (validate_record_frame _ _ _ _ _ _ _ Hrec) as (Ho & _).
      destruct Hend as [[_ ->]|[_ Hc]]; [exact Hinv1|].
      apply (train_checkpoint_snapshot _ _ _ _ _ _ _ mf) in Hc;
        [exact Hc | simpl; now rewrite Ho | exact Hinv1].
  - unfold train_iteration, on_stop_train in Hit.
    destruct x; try discriminate.
    destruct (is_distributed e); [discriminate|].
    injection Hit as <-. exact Hinv.
Qed.

(** So does the training loop. *)
Lemma train_loop_snapshot (fuel : nat) (ticks : list tick) (mf : string) :
  forall (self self' : TrainLoop) (ws ws' : list W) (fs fs' : filesystem)
         (done acts : list action),
    opt_get (opt self) "model_file" = VStr mf -> mf <> ""%string ->
    train_loop fuel self ticks ws fs done = Some (Ok (self', ws', fs', acts)) ->
    snapshot_kept mf self fs ->
    opt self' = opt self /\ snapshot_kept mf self' fs'.
Proof.
  induction ticks as [|k rest IH];
    intros self self' ws ws' fs fs' done acts Hmf Hne Hrun Hinv;
    simpl in Hrun; [discriminate|].
  destruct (train_iteration fuel self (tick_env k) (tick_timings k)
              (tick_step k) ws fs) as [[it|x]|] eqn:Hit; try discriminate.
  pose proof (train_iteration_snapshot _ _ _ _ _ _ _ _ mf Hmf Hne Hit Hinv)
    as Hinv1.
  destruct (train_iteration_config _ _ _ _ _ _ _ _ Hit)
    as (Ho & _).
  destruct (it_control it).
  - destruct (IH _ _ _ _ _ _ _ _ ltac:(now rewrite Ho) Hne Hrun Hinv1)
      as (Ho' & Hinv').
    rewrite Ho'. auto.
  - injection Hrun as <- <- <- <-. auto.
Qed.

(** The final evaluations keep every file but the log they append to. *)
Lemma run_eval_files (fuel : nat) (worlds : option (list W))
    (o : gmap string value) (datatype : string) (max_exs : Q)
    (write_log : bool) (fs fs' : filesystem) (ws' : option (list W))
    (r : option report) (mf : string) :
  opt_get o "model_file" = VStr mf ->
  run_eval fuel worlds o datatype max_exs write_log fs = Some (Ok (ws', r, fs')) ->
  forall p, p <> (mf +:+ "." +:+ datatype)%string ->
            files fs' !! p = files fs !! p.
Proof.
  intros Hmf Hr p Hp. unfold run_eval in Hr.
  destruct worlds as [l|]; [|now injection Hr as _ _ <-].
  destruct (run_eval_worlds _ _ _ _) as [[[l' rs]|x]|]; try discriminate.
  destruct (write_log && truthy (opt_get o "model_file"));
    [|now injection Hr as _ _ <-].
  injection Hr as Hr. rewrite Hmf in Hr. simpl in Hr.
  apply rbind_Ok in Hr as (fs1 & Happ & Hr). injection Hr as _ _ <-.
  apply append_line_files in Happ as [(old & ->) _].
  now rewrite lookup_insert_ne by congruence.
Qed.

(** When [train] returns on the primary worker, with a model file
    configured, the snapshot of the model is on the disk at the model
    file. *)
Lemma train_snapshot
    (create_task : gmap string value -> bool -> W) (fuel : nat)
    (self : TrainLoop) (ticks : list tick) (final : env)
    (valid_worlds : list W) (fs fs' : filesystem) (v_report t_report : option report)
    (mf : string) :
  opt_get (opt self) "model_file" = VStr mf -> mf <> ""%string ->
  snapshot_kept mf self fs ->
  is_primary_worker final = true ->
  train create_task fuel self ticks final valid_worlds fs
  = Some (Ok (v_report, t_report, fs')) ->
  files fs' !! mf = Some FModel.
Proof.
  intros Hmf Hne Hinv0 Hp Htrain. unfold train in Htrain.
  destruct (train_loop fuel self ticks valid_worlds fs [])
    as [[[[[s1 ws1] fs1] acts]|x]|] eqn:Hloop; try discriminate.
  destruct (train_loop_snapshot _ _ mf _ _ _ _ _ _ _ _ Hmf Hne Hloop Hinv0)
    as (Ho & Hinv1).
  assert (Hmf1 : opt_get (opt s1) "model_file" = VStr mf) by now rewrite Ho.
  unfold train_finalize in Htrain.
  destruct (if negb (saved s1) && is_primary_worker final
            then do_save_model s1 final None fs1 else Ok fs1)
    as [fs2|x] eqn:Hsave; [|discriminate].
  assert (H2 : files fs2 !! mf = Some FModel).
  { rewrite Hp, andb_true_r in Hsave. destruct (saved s1) eqn:Hs1; simpl in Hsave.
    - injection Hsave as <-. now apply Hinv1.
    - now apply (do_save_model_snapshot _ _ _ _ _ mf Hmf1 Hsave). }
  destruct (let* ws := load_eval_worlds create_task (opt s1) "valid" in
            let* m := final_max_exs (opt s1) in Ok (ws, m))
    as [[vws m]|x]; [|discriminate].
  destruct (run_eval fuel (Some vws) (opt s1) "valid" m true fs2)
    as [[[[ws3 vr] fs3]|x]|] eqn:Hv; try discriminate.
  destruct (load_eval_worlds create_task (opt s1) "test") as [tws|x];
    [|discriminate].
  destruct (run_eval fuel (Some tws) (opt s1) "test" m true fs3)
    as [[[[ws4 tr] fs4]|x]|] eqn:Ht; try discriminate.
  injection Htrain as _ _ <-.
  rewrite (run_eval_files _ _ _ _ _ _ _ _ _ _ mf Hmf1 Ht)
    by (apply not_eq_sym, append_neq_prefix; discriminate).
  rewrite (run_eval_files _ _ _ _ _ _ _ _ _ _ mf Hmf1 Hv)
    by (apply not_eq_sym, append_neq_prefix; discriminate).
  exact H2.
Qed.

(** X6.  The training loop keeps the configuration from its first
    iteration to its last: the options, the optimization direction and the
    six thresholds of the loop object it ends with are those it started
    with. *)
Theorem train_loop_keeps_configuration (fuel : nat) (ticks : list tick) :
  forall (self self' : TrainLoop) (ws ws' : list W) (fs fs' : filesystem)
         (done acts : list action),
    train_loop fuel self ticks ws fs done = Some (Ok (self', ws', fs', acts)) ->
    opt self' = opt self
    /\ valid_optim self' = valid_optim self
    /\ thresholds_of self' = thresholds_of self.
Proof.
  induction ticks as [|k rest IH];
    intros self self' ws ws' fs fs' done acts Hrun;
    simpl in Hrun; [discriminate|].
  destruct (train_iteration fuel self (tick_env k) (tick_timings k)
              (tick_step k) ws fs) as [[it|x]|] eqn:Hit; try discriminate.
  destruct (train_iteration_config _ _ _ _ _ _ _ _ Hit) as (Ho & Hd & Ht).
  destruct (it_control it).
  - destruct (IH _ _ _ _ _ _ _ _ Hrun) as (Ho' & Hd' & Ht').
    rewrite Ho', Hd', Ht'. auto.
  - injection Hrun as <- <- <- <-. auto.
Qed.

(** On a worker that is not the primary one the training loop never
    changes the disk. *)
Lemma train_loop_not_primary (fuel : nat) (ticks : list tick) :
  forall (self self' : TrainLoop) (ws ws' : list W) (fs fs' : filesystem)
         (done acts : list action),
    Forall (fun k => is_primary_worker (tick_env k) = false) ticks ->
    train_loop fuel self ticks ws fs done = Some (Ok (self', ws', fs', acts)) ->
    fs' = fs /\ opt self' = opt self.
Proof.
  induction ticks as [|k rest IH];
    intros self self' ws ws' fs fs' done acts Hall Hrun;
    simpl in Hrun; [discriminate|].
  apply Forall_cons in Hall as [Hk Hall].
  destruct (train_iteration fuel self (tick_env k) (tick_timings k)
              (tick_step k) ws fs) as [[it|x]|] eqn:Hit; try discriminate.
  destruct (train_iteration_config _ _ _ _ _ _ _ _ Hit) as (Ho & _).
  pose proof (train_iteration_not_primary _ _ _ _ _ _ _ _ Hk Hit) as Hfs.
  destruct (it_control it).
  - destruct (IH _ _ _ _ _ _ _ _ Hall Hrun) as (-> & ->). auto.
  - injection Hrun as <- <- <- <-. auto.
Qed.

(** X7.  On a worker that is not the primary one, a whole run of [train]
    changes no file but the two evaluation logs of the model file, to
    which the final evaluations append on every worker: all the snapshots
    and stats files are the primary worker's. *)
Theorem train_not_primary_disk
    (create_task : gmap string value -> bool -> W) (fuel : nat)
    (self : TrainLoop) (ticks : list tick) (final : env)
    (valid_worlds : list W) (fs fs' : filesystem)
    (v_report t_report : option report) (mf : string) :
  opt_get (opt self) "model_file" = VStr mf ->
  Forall (fun k => is_primary_worker (tick_env k) = false) ticks ->
  is_primary_worker final = false ->
  train create_task fuel self ticks final valid_worlds fs
  = Some (Ok (v_report, t_report, fs')) ->
  forall p, p <> (mf +:+ ".valid")%string -> p <> (mf +:+ ".test")%string ->
            files fs' !! p = files fs !! p.
Proof.
  intros Hmf Hall Hp Htrain p Hpv Hpt. unfold train in Htrain.
  destruct (train_loop fuel self ticks valid_worlds fs [])
    as [[[[[s1 ws1] fs1] acts]|x]|] eqn:Hloop; try discriminate.
  destruct (train_loop_not_primary _ _ _ _ _ _ _ _ _ _ Hall Hloop) as (-> & Ho).
  assert (Hmf1 : opt_get (opt s1) "model_file" = VStr mf) by now rewrite Ho.
  unfold train_finalize in Htrain. rewrite Hp, andb_false_r in Htrain.
  destruct (let* ws := load_eval_worlds create_task (opt s1) "valid" in
            let* m := final_max_exs (opt s1) in Ok (ws, m))
    as [[vws m]|x]; [|discriminate].
  destruct (run_eval fuel (Some vws) (opt s1) "valid" m true fs)
    as [[[[ws3 vr] fs3]|x]|] eqn:Hv; try discriminate.
  destruct (load_eval_worlds create_task (opt s1) "test") as [tws|x];
    [|discriminate].
  destruct (run_eval fuel (Some tws) (opt s1) "test" m true fs3)
    as [[[[ws4 tr] fs4]|x]|] eqn:Ht; try discriminate.
  injection Htrain as _ _ <-.
  rewrite (run_eval_files _ _ _ _ _ _ _ _ _ _ mf Hmf1 Ht) by exact Hpt.
  now rewrite (run_eval_files _ _ _ _ _ _ _ _ _ _ mf Hmf1 Hv) by exact Hpv.
Qed.
End Snapshot.

(** ** From the constructor to the end of the run *)

Lemma TrainLoop_init_opt_lookup (opt0 : gmap string value) (fs : filesystem)
    (self : TrainLoop) (k : string) :
  TrainLoop_init opt0 fs = Ok self ->
  k <> "init_model"%string -> k <> "validation_metric_mode"%string ->
  opt self !! k = opt0 !! k.
Proof.
  intros Hinit H1 H2.
  destruct (TrainLoop_init_inv _ _ _ Hinit)
    as (opt1 & sfx & stats & Hs & _ & _ & _ & _ & _ & _ & Hm & _).
  rewrite (init_validation_metric_mode_lookup _ _ k Hm H2).
  exact (init_trainstats_suffix_lookup _ _ _ _ k Hs H1).
Qed.

Lemma TrainLoop_init_counters (opt0 : gmap string value) (fs : filesystem)
    (self : TrainLoop) :
  TrainLoop_init opt0 fs = Ok self ->
  saved self = false /\ parleys self = 0 /\ last_valid_epoch self = 0%Q
  /\ _total_epochs self = 0%Q.
Proof.
  unfold TrainLoop_init. intros H.
  inv_bind H. destruct a as [opt1 sfx].
  do 12 inv_bind H.
  injection H as <-. simpl. auto.
Qed.

(** X9.  The script's run, [TrainLoop(opt).train()], on the primary worker
    with a model file: when it returns, the snapshot of the model is on the
    disk at the model file.  Either a validation saved a best model during
    the run, and nothing removed it since, or the last save of [train]
    wrote the current one. *)
Theorem main_leaves_snapshot {W : Type} `{World W} `{Metrics}
    (create_task : gmap string value -> bool -> W) (fuel : nat)
    (opt0 : gmap string value) (self : TrainLoop) (ticks : list tick)
    (final : env) (valid_worlds : list W) (fs fs' : filesystem)
    (v_report t_report : option report) (mf : string) :
  opt0 !! "model_file" = Some (VStr mf) -> mf <> ""%string ->
  is_primary_worker final = true ->
  TrainLoop_init opt0 fs = Ok self ->
  train create_task fuel self ticks final valid_worlds fs
  = Some (Ok (v_report, t_report, fs')) ->
  files fs' !! mf = Some FModel.
Proof.
  intros Hmf Hne Hp Hinit Htrain.
  destruct (TrainLoop_init_counters _ _ _ Hinit) as (Hsaved & _).
  apply (train_snapshot create_task fuel self ticks final valid_worlds fs fs'
           v_report t_report mf); try assumption.
  - unfold opt_get.
    rewrite (TrainLoop_init_opt_lookup _ _ _ "model_file" Hinit)
      by discriminate.
    now rewrite Hmf.
  - intros Hs. congruence.
Qed.

(** ** The estimated time left *)


(** X11.  Under the key that [_compute_eta] reads, [max_training_time], a
    positive time budget caps the estimate: the result is never above the
    budget less the time elapsed, and it is exactly that when the epoch
    extrapolation is off (no epoch budget, or no epoch completed yet). *)
Theorem _compute_eta_time_cap (self : TrainLoop)
    (max_epochs max_training_time epochs_completed time_elapsed : Q) :
  opt self !! "num_epochs" = Some (VNum max_epochs) ->
  opt self !! "max_training_time" = Some (VNum max_training_time) ->
  (0 < max_training_time)%Q ->
  exists eta : Q,
    _compute_eta self epochs_completed time_elapsed = Ok (Some eta)
    /\ (eta <= max_training_time - time_elapsed)%Q
    /\ ((max_epochs <= 0)%Q \/ (epochs_completed <= 0)%Q ->
        eta = (max_training_time - time_elapsed)%Q).
Proof.
  intros Hn Hk Ht. unfold _compute_eta, opt_get_default. rewrite Hn, Hk.
  cbn [default from_option id as_num rbind]. apply Qgtb_gt in Ht. rewrite Ht.
  destruct (Qgtb max_epochs 0) eqn:He; [destruct (Qgtb epochs_completed 0) eqn:Hc|];
    cbn [andb].
  - destruct (Qltb _ _) eqn:Hlt; eexists; (split; [reflexivity|]); split.
    + lra.
    + apply Qgtb_gt in He, Hc. intros [?|?]; lra.
    + apply Qltb_ge in Hlt. exact Hlt.
    + apply Qgtb_gt in He, Hc. intros [?|?]; lra.
  - eexists. split; [reflexivity|]. split; [lra|reflexivity].
  - eexists. split; [reflexivity|]. split; [lra|reflexivity].
Qed.

(** ** The best value on the disk *)

Lemma append_inj_l (s a b : string) : (s +:+ a = s +:+ b)%string -> a = b.
Proof. induction s as [|c s IH]; simpl; [auto|]. intros [= Heq]. auto. Qed.

Lemma append_empty_r (s : string) : (s +:+ "")%string = s.
Proof.
  induction s as [|c s IH]; [reflexivity|].
  change (String c (s +:+ "") = String c s)%string. now rewrite IH.
Qed.

(** A save touches no file beside the model file but its own two. *)
Lemma do_save_model_other (self : TrainLoop) (e : env) (suffix : option string)
    (fs fs' : filesystem) (mf tail : string) :
  opt_get (opt self) "model_file" = VStr mf ->
  do_save_model self e suffix fs = Ok fs' ->
  tail <> default ""%string suffix ->
  tail <> (default ""%string suffix +:+ ".trainstats")%string ->
  files fs' !! (mf +:+ tail)%string = files fs !! (mf +:+ tail)%string.
Proof.
  intros Hmf Hs H1 H2.
  destruct (do_save_model_files _ _ _ _ _ Hs)
    as [[_ ->]|(_ & fn & Hfn & -> & _)]; [reflexivity|].
  unfold save_path, opt_index in Hfn. unfold opt_get in Hmf.
  destruct (opt self !! "model_file") as [v|]; [|discriminate].
  simpl in Hmf. subst v. simpl in Hfn. injection Hfn as <-.
  assert (Hfn : (match suffix with Some s => mf +:+ s | None => mf end
                 = mf +:+ default "" suffix)%string).
  { destruct suffix; simpl; [reflexivity | now rewrite append_empty_r]. }
  rewrite Hfn, string_append_assoc.
  rewrite !lookup_insert_ne; [reflexivity| |];
    intros Heq; apply append_inj_l in Heq; congruence.
Qed.

(** X12.  The best value survives a restart.  On the primary worker, with
    a model file, a validation leaves the disk such that a constructor
    reading it finds the best value of the loop: if the file
    [model_file.best_valid] agreed with the loop before the validation, it
    agrees after it. *)
Theorem best_valid_survives_restart (self self' : TrainLoop) (e : env)
    (r : report) (fs fs' : filesystem) (stop : bool) (mf : string) :
  opt_get (opt self) "model_file" = VStr mf -> mf <> ""%string ->
  is_primary_worker e = true ->
  validate_record self e r fs = Ok (self', fs', stop) ->
  init_best_valid (opt self) fs = Ok (best_valid self) ->
  init_best_valid (opt self') fs' = Ok (best_valid self').
Proof.
  intros Hmf Hne Hp H Hinv.
  destruct (validate_record_frame _ _ _ _ _ _ _ H) as (Ho & _).
  unfold init_best_valid in *. rewrite Ho, Hmf in *.
  rewrite (truthy_nonempty _ Hne) in *. cbn [as_str rbind] in *.
  unfold validate_record in H. rewrite Hp, Hmf, (truthy_nonempty _ Hne) in H.
  apply rbind_Ok in H as (tb & _ & H).
  apply rbind_Ok in H as (fs0 & Hck & H).
  assert (Hkeep0 : files fs0 !! (mf +:+ ".best_valid")%string
                   = files fs !! (mf +:+ ".best_valid")%string).
  { destruct (_ && _) in Hck; [|now injection Hck as <-].
    apply (do_save_model_other _ _ _ _ _ mf ".best_valid") in Hck;
      [exact Hck | exact Hmf | discriminate | discriminate]. }
  apply rbind_Ok in H as (vm & _ & H).
  apply rbind_Ok in H as (key & _ & H).
  apply rbind_Ok in H as (v & _ & H).
  destruct (is_new_best _ _).
  - cbn [andb as_str rbind] in H.
    apply rbind_Ok in H as ([s2 fs2] & Hsave & H).
    apply rbind_Ok in Hsave as (fs1 & Hbest & Hsave).
    apply rbind_Ok in Hsave as (fsb & Hwrite & Hsave).
    injection Hsave as <- <-.
    apply write_file_files in Hwrite as [Hwrite _].
    assert (Hend : self' = set_saved
                     (set_impatience
                        (set_best_valid
                           (set_valid_reports self
                              (valid_reports self ++
                               [_values_only
                                  (<["train_time" := Raw (train_time_now e)]> r)]))
                           (Some v)) 0) true
                   /\ fs' = fsb).
    { destruct (String.eqb key "accuracy"); inv_result; auto. }
    destruct Hend as [-> ->]. rewrite Hwrite, lookup_insert_eq. reflexivity.
  - assert (Hend : best_valid self' = best_valid self /\ fs' = fs0).
    { inv_result; auto. }
    destruct Hend as [-> ->]. rewrite Hkeep0. exact Hinv.
Qed.

(** ** What the constructor asks for *)

(** X13.  The constructor builds no loop without a place to save to: when
    neither [dict_file] nor [model_file] is set it raises, a [RuntimeError]
    as soon as the option [load_from_checkpoint] exists. *)
Theorem TrainLoop_init_requires_path (opt0 : gmap string value)
    (fs : filesystem) :
  truthy (opt_get opt0 "dict_file") = false ->
  truthy (opt_get opt0 "model_file") = false ->
  exists x, TrainLoop_init opt0 fs = Raise x
            /\ (opt0 !! "load_from_checkpoint" = None
                -> x = KeyError "load_from_checkpoint")
            /\ (opt0 !! "load_from_checkpoint" <> None
                -> exists msg, x = RuntimeError msg).
Proof.
  intros Hd Hm. unfold TrainLoop_init, init_trainstats_suffix, opt_index.
  destruct (opt0 !! "load_from_checkpoint") as [lfc|].
  - cbn [rbind]. rewrite Hm, andb_false_r. cbn [rbind].
    unfold init_check_paths. rewrite Hd, Hm. cbn [orb rbind].
    eexists. split; [reflexivity|]. split; [discriminate|]. eauto.
  - cbn [rbind]. eexists. split; [reflexivity|]. split; [auto|congruence].
Qed.

(** ** The checkpoint written after a validation *)

(** X14.  With [save_after_valid], on the primary worker, the checkpoint
    that a validation writes is taken after the report is recorded and
    before the impatience is updated: its stats file, as the constructor
    of a restarted loop reads it, holds the history with the report of
    this validation, and the impatience the loop had before it. *)
Theorem validate_checkpoint_stats (self self' : TrainLoop) (e : env)
    (r : report) (fs fs' : filesystem) (stop : bool) (mf : string) :
  opt_get (opt self) "model_file" = VStr mf -> mf <> ""%string ->
  truthy (opt_get (opt self) "save_after_valid") = true ->
  is_primary_worker e = true ->
  validate_record self e r fs = Ok (self', fs', stop) ->
  exists ts,
    init_trainstats (opt self') fs' ".checkpoint.trainstats" = Ok (Some ts)
    /\ ts_valid_reports ts = valid_reports self'
    /\ ts_impatience ts = impatience self.
Proof.
  intros Hmf Hne Hsav Hp H.
  destruct (validate_record_frame _ _ _ _ _ _ _ H)
    as (Ho & _ & _ & _ & _ & _ & _ & _ & Hvr).
  set (s1 := set_valid_reports self
               (valid_reports self
                ++ [_values_only (<["train_time" := Raw (train_time_now e)]> r)])).
  assert (Hfile : files fs' !! (mf +:+ ".checkpoint.trainstats")%string
                  = Some (FJson (trainstats_json s1 e))).
  { unfold validate_record in H.
    rewrite Hp, Hsav, Hmf, (truthy_nonempty _ Hne) in H. cbn [andb] in H.
    apply rbind_Ok in H as (tb & _ & H).
    apply rbind_Ok in H as (fs0 & Hck & H).
    assert (H0 : files fs0 !! (mf +:+ ".checkpoint.trainstats")%string
                 = Some (FJson (trainstats_json s1 e))).
    { destruct (do_save_model_files _ _ _ _ _ Hck)
        as [[Hoff _]|(_ & fn & Hfn & -> & _)].
      - simpl in Hoff. rewrite Hp, Hmf, (truthy_nonempty _ Hne) in Hoff.
        discriminate.
      - unfold save_path, opt_index in Hfn. simpl in Hfn.
        unfold opt_get in Hmf.
        destruct (opt self !! "model_file") as [v|]; [|discriminate].
        simpl in Hmf. subst v. simpl in Hfn. injection Hfn as <-.
        rewrite string_append_assoc. apply lookup_insert_eq. }
    apply rbind_Ok in H as (vm & _ & H).
    apply rbind_Ok in H as (key & _ & H).
    apply rbind_Ok in H as (v & _ & H).
    destruct (is_new_best _ _).
    - cbn [as_str rbind] in H.
      apply rbind_Ok in H as ([s2 fs2] & Hsave & H).
      apply rbind_Ok in Hsave as (fs1 & Hbest & Hsave).
      apply rbind_Ok in Hsave as (fsb & Hwrite & Hsave).
      injection Hsave as <- <-.
      apply write_file_files in Hwrite as [Hwrite _].
      apply (do_save_model_other _ _ _ _ _ mf ".checkpoint.trainstats")
        in Hbest; [|exact Hmf|discriminate|discriminate].
      assert (Hend : fs' = fsb).
      { destruct (String.eqb key "accuracy"); inv_result; auto. }
      subst fs'. rewrite Hwrite, lookup_insert_ne, Hbest; [exact H0|].
      intros Heq. apply append_inj_l in Heq. discriminate.
    - assert (Hend : fs' = fs0) by (inv_result; auto).
      now subst fs'. }
  exists (saved_trainstats s1 e).
  split; [|split; [now rewrite Hvr | reflexivity]].
  unfold init_trainstats. rewrite Ho, Hmf, (truthy_nonempty _ Hne).
  cbn [as_str rbind]. rewrite Hfile.
  destruct (load_trainstats_saved s1 e) as (obj & -> & ->). reflexivity.
Qed.

Lemma train_iteration_counters_witness :
  exists it,
    @train_iteration counter_world _ plain_metrics 0 one_epoch_loop
      (single_worker (1 # 2) 5) (mk_timings 5 1 1 1) (Ok tt) [] empty_fs
    = Some (Ok it)
    /\ parleys (it_self it) = 1.
Proof.
  destruct (@train_iteration counter_world _ plain_metrics 0 one_epoch_loop
              (single_worker (1 # 2) 5) (mk_timings 5 1 1 1) (Ok tt) []
              empty_fs) as [[it|x]|] eqn:E.
  - exists it. split; [reflexivity|].
    exact (proj1 (@train_iteration_counters counter_world _ plain_metrics 0
                    one_epoch_loop (single_worker (1 # 2) 5)
                    (mk_timings 5 1 1 1) tt [] empty_fs it E)).
  - vm_compute in E. discriminate E.
  - vm_compute in E. discriminate E.
Defined.


Lemma train_loop_keeps_configuration_witness :
  exists self' ws' fs' acts,
    @train_loop counter_world _ plain_metrics 0 one_epoch_loop one_epoch_ticks
      [] empty_fs [] = Some (Ok (self', ws', fs', acts))
    /\ opt self' = opt one_epoch_loop.
Proof.
  destruct (@train_loop counter_world _ plain_metrics 0 one_epoch_loop
              one_epoch_ticks [] empty_fs [])
    as [[[[[s ws] fs'] acts]|x]|] eqn:E.
  - exists s, ws, fs', acts. split; [reflexivity|].
    exact (proj1 (@train_loop_keeps_configuration counter_world _
                    plain_metrics 0 one_epoch_ticks one_epoch_loop s [] ws
                    empty_fs fs' [] acts E)).
  - vm_compute in E. discriminate E.
  - vm_compute in E. discriminate E.
Defined.

Lemma train_not_primary_disk_witness :
  exists v t fs',
    @train counter_world _ plain_metrics three_examples 10 run_loop
      second_worker_ticks (second_worker (1 # 2)) [] empty_fs
    = Some (Ok (v, t, fs'))
    /\ files fs' !! "/tmp/model"%string = files empty_fs !! "/tmp/model"%string.
Proof.
  destruct (@train counter_world _ plain_metrics three_examples 10 run_loop
              second_worker_ticks (second_worker (1 # 2)) [] empty_fs)
    as [[[[v t] fs']|x]|] eqn:E.
  - exists v, t, fs'. split; [reflexivity|].
    apply (@train_not_primary_disk counter_world _ plain_metrics three_examples
             10 run_loop second_worker_ticks (second_worker (1 # 2)) []
             empty_fs fs' v t "/tmp/model").
    + vm_compute. reflexivity.
    + repeat constructor.
    + reflexivity.
    + exact E.
    + discriminate.
    + discriminate.
  - vm_compute in E. discriminate E.
  - vm_compute in E. discriminate E.
Defined.

Example run_loop_built : TrainLoop_init run_opt0 empty_fs = Ok run_loop.
Proof. vm_compute. reflexivity. Qed.

Lemma main_leaves_snapshot_witness :
  exists v t fs',
    @train counter_world _ plain_metrics three_examples 10 run_loop
      one_epoch_ticks (single_worker 1 10) [] empty_fs
    = Some (Ok (v, t, fs'))
    /\ files fs' !! "/tmp/model"%string = Some FModel.
Proof.
  destruct (@train counter_world _ plain_metrics three_examples 10 run_loop
              one_epoch_ticks (single_worker 1 10) [] empty_fs)
    as [[[[v t] fs']|x]|] eqn:E.
  - exists v, t, fs'. split; [reflexivity|].
    apply (@main_leaves_snapshot counter_world _ plain_metrics three_examples
             10 run_opt0 run_loop one_epoch_ticks (single_worker 1 10) []
             empty_fs fs' v t "/tmp/model").
    + vm_compute. reflexivity.
    + discriminate.
    + reflexivity.
    + vm_compute. reflexivity.
    + exact E.
  - vm_compute in E. discriminate E.
  - vm_compute in E. discriminate E.
Defined.


Lemma _compute_eta_time_cap_witness :
  exists eta : Q,
    _compute_eta eta_capped_loop 1 10 = Ok (Some eta)
    /\ (eta <= 100 - 10)%Q
    /\ ((-1 <= 0)%Q \/ (1 <= 0)%Q -> eta = (100 - 10)%Q).
Proof.
  apply (_compute_eta_time_cap eta_capped_loop (-1) 100 1 10).
  - vm_compute. reflexivity.
  - vm_compute. reflexivity.
  - reflexivity.
Defined.

Lemma best_valid_survives_restart_witness :
  exists s f stop,
    validate_record patient_loop (single_worker 0 0)
      {[ "accuracy"%string := Metric (1 # 2) ]} empty_fs = Ok (s, f, stop)
    /\ init_best_valid (opt s) f = Ok (best_valid s).
Proof.
  destruct (validate_record patient_loop (single_worker 0 0)
              {[ "accuracy"%string := Metric (1 # 2) ]} empty_fs)
    as [[[s f] stop]|x] eqn:E.
  - exists s, f, stop. split; [reflexivity|].
    apply (best_valid_survives_restart patient_loop s (single_worker 0 0)
             {[ "accuracy"%string := Metric (1 # 2) ]} empty_fs f stop
             "/tmp/model").
    + vm_compute. reflexivity.
    + discriminate.
    + reflexivity.
    + exact E.
    + vm_compute. reflexivity.
  - vm_compute in E. discriminate E.
Defined.

Lemma TrainLoop_init_requires_path_witness :
  exists x, TrainLoop_init setup_args_defaults empty_fs = Raise x
            /\ (setup_args_defaults !! "load_from_checkpoint" = None
                -> x = KeyError "load_from_checkpoint")
            /\ (setup_args_defaults !! "load_from_checkpoint" <> None
                -> exists msg, x = RuntimeError msg).
Proof.
  apply (TrainLoop_init_requires_path setup_args_defaults empty_fs).
  - vm_compute. reflexivity.
  - vm_compute. reflexivity.
Defined.

Lemma TrainLoop_init_fresh_witness :
  best_valid one_epoch_loop = None /\ impatience one_epoch_loop = 0
  /\ valid_reports one_epoch_loop = []
  /\ (_preempted_epochs one_epoch_loop == 0)%Q.
Proof.
  apply (TrainLoop_init_fresh one_epoch_opt empty_fs one_epoch_loop).
  - reflexivity.
  - vm_compute. reflexivity.
Defined.

Lemma validate_checkpoint_stats_witness :
  exists s f stop ts,
    validate_record checkpointing_loop (single_worker 0 0)
      {[ "accuracy"%string := Metric (1 # 2) ]} empty_fs = Ok (s, f, stop)
    /\ init_trainstats (opt s) f ".checkpoint.trainstats" = Ok (Some ts)
    /\ ts_valid_reports ts = valid_reports s
    /\ ts_impatience ts = impatience checkpointing_loop.
Proof.
  destruct (validate_record checkpointing_loop (single_worker 0 0)
              {[ "accuracy"%string := Metric (1 # 2) ]} empty_fs)
    as [[[s f] stop]|x] eqn:E.
  - destruct (validate_checkpoint_stats checkpointing_loop s
                (single_worker 0 0) {[ "accuracy"%string := Metric (1 # 2) ]}
                empty_fs f stop "/tmp/model") as (ts & Hts).
    + vm_compute. reflexivity.
    + discriminate.
    + vm_compute. reflexivity.
    + reflexivity.
    + exact E.
    + exists s, f, stop, ts. split; [reflexivity | exact Hts].
  - vm_compute in E. discriminate E.
Defined.
